(** * LATimesScrapper: extraction, pagination cutoff and enrichment

    A shallow embedding of [src/LATimesScrapper.py] (class [LatimesScraper])
    and the properties of its result-extraction pipeline.

    Python text is modelled as [string]; a character stands for the code
    point of the same number, so the texts covered are those below U+0100.
    Python integers are [Z]; exceptions are values of [exn]. *)

From Stdlib Require Import ZArith List Bool Ascii String Lia Arith.
Import ListNotations.
Open Scope string_scope.
Open Scope list_scope.
Open Scope nat_scope.

Infix "+++" := String.append (at level 60, right associativity).

(** ** Exceptions and results *)

(** The exception classes that the modelled code can meet.  All of them
    derive from Python's [Exception], so [except Exception] catches each. *)
Inductive exn : Type :=
| TimeoutException        (* selenium: WebDriverWait(...).until gave up *)
| NoSuchElementException  (* selenium: find_element found nothing *)
| ValueError              (* datetime(...), strptime, pd.DataFrame *)
| TypeError               (* item assignment on None *)
| ReError                 (* re.error: the pattern does not compile *)
| OSError                 (* os.makedirs, DataFrame.to_excel *)
| AttributeError          (* the .str accessor of a column without strings *)
| OverflowError.          (* an int that does not fit a C int *)

Definition result (A : Type) : Type := (exn + A)%type.
Definition ok {A} (a : A) : result A := inr a.
Definition throw {A} (e : exn) : result A := inl e.

Definition rbind {A B} (r : result A) (k : A -> result B) : result B :=
  match r with
  | inl e => inl e
  | inr a => k a
  end.

(** ** Characters and text *)

Module Text.

Definition code (c : ascii) : nat := nat_of_ascii c.

(** [\d] of [re] on [str], below U+0100. *)
Definition is_digit (c : ascii) : bool :=
  (48 <=? code c) && (code c <=? 57).

(** [\s] of [re] on [str], below U+0100: tab to carriage return, the
    separators 0x1c-0x1f, space, NEL and the no-break space. *)
Definition is_space (c : ascii) : bool :=
  let n := code c in
  ((9 <=? n) && (n <=? 13)) || ((28 <=? n) && (n <=? 32))
  || (n =? 133) || (n =? 160).

(** [str.lower] on one character, below U+0100. *)
Definition lower_char (c : ascii) : ascii :=
  let n := code c in
  if ((65 <=? n) && (n <=? 90))
     || ((192 <=? n) && (n <=? 222) && negb (n =? 215))
  then ascii_of_nat (n + 32) else c.

Fixpoint lower (s : string) : string :=
  match s with
  | EmptyString => EmptyString
  | String c s' => String (lower_char c) (lower s')
  end.

(** [s.replace(c, '')] for a one-character [c]. *)
Fixpoint remove_char (c : ascii) (s : string) : string :=
  match s with
  | EmptyString => EmptyString
  | String a s' =>
      if Ascii.eqb a c then remove_char c s' else String a (remove_char c s')
  end.

(** [sub in s]. *)
Fixpoint contains (sub s : string) : bool :=
  prefix sub s ||
  match s with
  | EmptyString => false
  | String _ s' => contains sub s'
  end.

Definition digit_value (c : ascii) : Z := Z.of_nat (code c - 48).

(** [str.count(sub)] of Python: occurrences found left to right, the search
    resuming after the end of each one found; the empty [sub] is found
    before every character and at the end. *)
Fixpoint count_skip (sub s : string) (skip : nat) : nat :=
  match s with
  | EmptyString => 0
  | String _ s' =>
      match skip with
      | S k => count_skip sub s' k
      | O => if prefix sub s
             then S (count_skip sub s' (String.length sub - 1))
             else count_skip sub s' 0
      end
  end.

Definition count (sub s : string) : nat :=
  match sub with
  | EmptyString => S (String.length s)
  | _ => count_skip sub s 0
  end.

End Text.

(** ** datetime *)

Record datetime : Type := mk_datetime {
  year : Z; month : Z; day : Z;
  hour : Z; minute : Z; second : Z; microsecond : Z
}.

Definition is_leap (y : Z) : bool :=
  ((y mod 4 =? 0) && negb (y mod 100 =? 0) || (y mod 400 =? 0))%Z.

Definition days_in_month (y m : Z) : Z :=
  (if m =? 2 then (if is_leap y then 29 else 28)
   else if (m =? 4) || (m =? 6) || (m =? 9) || (m =? 11) then 30
   else 31)%Z.

(** An integer that the constructor can take as a C int. *)
Definition fits_c_int (n : Z) : bool :=
  ((-2147483648 <=? n) && (n <=? 2147483647))%Z.

(** [dt.datetime(y, m, d)]: midnight of that day; [OverflowError] when an
    argument does not fit a C int, [ValueError] outside MINYEAR..MAXYEAR,
    1..12 and the month's days. *)
Definition datetime_new (y m d : Z) : result datetime :=
  if fits_c_int y && fits_c_int m && fits_c_int d then
    if ((1 <=? y) && (y <=? 9999) && (1 <=? m) && (m <=? 12)
        && (1 <=? d) && (d <=? days_in_month y m))%Z
    then ok (mk_datetime y m d 0 0 0 0)
    else throw ValueError
  else throw OverflowError.

Definition datetime_key (t : datetime) : list Z :=
  [year t; month t; day t; hour t; minute t; second t; microsecond t].

Fixpoint lex_lt (a b : list Z) : bool :=
  match a, b with
  | x :: a', y :: b' => (x <? y)%Z || ((x =? y)%Z && lex_lt a' b')
  | _, _ => false
  end.

(** [a < b] on naive datetimes: field by field, most significant first. *)
Definition datetime_lt (a b : datetime) : bool :=
  lex_lt (datetime_key a) (datetime_key b).

(** ** strptime for the two formats of the scraper *)

Module Strptime.
Import Text.

(** The pieces of a format string, as [_strptime] turns them into a
    regular expression: [%B] and [%b] are the alternatives of the month
    names (case ignored), [%d] is [3[0-1]|[1-2]\d|0[1-9]|[1-9]| [1-9]], [%Y]
    is [\d\d\d\d], a run of blanks is [\s+], anything else stands for
    itself. *)
Inductive directive : Type :=
| DirB | Dirb | Dird | DirY | Blank | Lit (c : ascii).

(** ["%B %d, %Y"] *)
Definition fmt_long : list directive :=
  [DirB; Blank; Dird; Lit ","; Blank; DirY].

(** ["%b %d, %Y"] *)
Definition fmt_abbr : list directive :=
  [Dirb; Blank; Dird; Lit ","; Blank; DirY].

(** Month names of the C locale, lower case as [LocaleTime] keeps them. *)
Definition full_months : list (string * Z) :=
  [("january", 1); ("february", 2); ("march", 3); ("april", 4); ("may", 5);
   ("june", 6); ("july", 7); ("august", 8); ("september", 9);
   ("october", 10); ("november", 11); ("december", 12)]%Z.

Definition abbr_months : list (string * Z) :=
  [("jan", 1); ("feb", 2); ("mar", 3); ("apr", 4); ("may", 5); ("jun", 6);
   ("jul", 7); ("aug", 8); ("sep", 9); ("oct", 10); ("nov", 11);
   ("dec", 12)]%Z.

(** [name] matched at the head of [s], case ignored. *)
Fixpoint iprefix (name s : string) : option string :=
  match name, s with
  | EmptyString, _ => Some s
  | String a name', String b s' =>
      if Ascii.eqb a (lower_char b) then iprefix name' s' else None
  | String _ _, EmptyString => None
  end.

(** No name of either table starts another one, so the first alternative
    that matches is the only one. *)
Fixpoint match_name (names : list (string * Z)) (s : string)
  : option (Z * string) :=
  match names with
  | [] => None
  | (name, m) :: names' =>
      match iprefix name s with
      | Some rest => Some (m, rest)
      | None => match_name names' s
      end
  end.

Fixpoint skip_blanks (s : string) : string :=
  match s with
  | EmptyString => EmptyString
  | String c s' => if is_space c then skip_blanks s' else s
  end.

Definition nonzero_digit (c : ascii) : bool :=
  is_digit c && negb (Ascii.eqb c "0").

(** The two-digit alternatives of [%d]: [3[0-1]], [[1-2]\d], [0[1-9]]. *)
Definition two_digit_day (a b : ascii) : bool :=
  (Ascii.eqb a "3" && (Ascii.eqb b "0" || Ascii.eqb b "1"))
  || ((Ascii.eqb a "1" || Ascii.eqb a "2") && is_digit b)
  || (Ascii.eqb a "0" && nonzero_digit b).

(** [%d].  In both formats a comma follows, which no digit matches, so a
    two-digit alternative that matches is never given up for [[1-9]]; and
    the blank of [ [1-9]] is already taken by the [\s+] before it. *)
Definition match_day (s : string) : option (Z * string) :=
  match s with
  | String a (String b rest) =>
      if two_digit_day a b
      then Some ((10 * digit_value a + digit_value b)%Z, rest)
      else if nonzero_digit a then Some (digit_value a, String b rest)
      else None
  | String a EmptyString =>
      if nonzero_digit a then Some (digit_value a, EmptyString) else None
  | EmptyString => None
  end.

(** [%Y]: exactly four digits. *)
Definition match_year (s : string) : option (Z * string) :=
  match s with
  | String a (String b (String c (String d rest))) =>
      if is_digit a && is_digit b && is_digit c && is_digit d
      then Some ((1000 * digit_value a + 100 * digit_value b
                  + 10 * digit_value c + digit_value d)%Z, rest)
      else None
  | _ => None
  end.

Record fields : Type := mk_fields { f_year : Z; f_month : Z; f_day : Z }.

(** Values of the fields a format does not mention. *)
Definition defaults : fields := mk_fields 1900 1 1.

(** The whole of [s] against [fmt]; [None] is "does not match format" or
    "unconverted data remains". *)
Fixpoint parse (fmt : list directive) (s : string) (acc : fields)
  : option fields :=
  match fmt with
  | [] => match s with EmptyString => Some acc | _ => None end
  | DirB :: fmt' =>
      match match_name full_months s with
      | Some (m, rest) => parse fmt' rest (mk_fields (f_year acc) m (f_day acc))
      | None => None
      end
  | Dirb :: fmt' =>
      match match_name abbr_months s with
      | Some (m, rest) => parse fmt' rest (mk_fields (f_year acc) m (f_day acc))
      | None => None
      end
  | Dird :: fmt' =>
      match match_day s with
      | Some (d, rest) => parse fmt' rest (mk_fields (f_year acc) (f_month acc) d)
      | None => None
      end
  | DirY :: fmt' =>
      match match_year s with
      | Some (y, rest) => parse fmt' rest (mk_fields y (f_month acc) (f_day acc))
      | None => None
      end
  | Blank :: fmt' =>
      match s with
      | String c s' =>
          if is_space c then parse fmt' (skip_blanks s') acc else None
      | EmptyString => None
      end
  | Lit c :: fmt' =>
      match s with
      | String a s' => if Ascii.eqb a c then parse fmt' s' acc else None
      | EmptyString => None
      end
  end.

(** [dt.datetime.strptime(s, fmt)]: [ValueError] when [s] does not match or
    names a day that does not exist. *)
Definition strptime (s : string) (fmt : list directive) : result datetime :=
  match parse fmt s defaults with
  | None => throw ValueError
  | Some f => datetime_new (f_year f) (f_month f) (f_day f)
  end.

End Strptime.

(** ** Date normalisation (lines 159-167 of [_extract_data]) *)

(** What the loop body makes of the timestamp text of an entry:
<<
    date = date.replace('.', '')
    if 'ago' in date:
        date = today
    elif type(date) == str:
        try:
            date = dt.datetime.strptime(date, "%B %d, %Y")
        except ValueError:
            date = dt.datetime.strptime(date, "%b %d, %Y")
>> *)
Definition normalize (today : datetime) (text : string) : result datetime :=
  let date := Text.remove_char "." text in
  if Text.contains "ago" date then ok today
  else
    match Strptime.strptime date Strptime.fmt_long with
    | inr d => ok d
    | inl ValueError => Strptime.strptime date Strptime.fmt_abbr
    | inl e => throw e
    end.

(** Line 148: [date_min = dt.datetime(today.year, today.month - months_back, 1)]. *)
Definition date_min (today : datetime) (months_back : Z) : result datetime :=
  datetime_new (year today) (month today - months_back)%Z 1.

Definition d20230815 : datetime := mk_datetime 2023 8 15 10 30 0 0.

(** ** Regular expressions *)

Module Regex.
Import Text.

(** What one position of a pattern accepts. *)
Inductive cclass : Type :=
| CChar (c : ascii)    (* the character itself *)
| CDigit               (* \d *)
| CSpace               (* \s *)
| CDot.                (* .  : anything but a newline *)

Definition cmatch (k : cclass) (c : ascii) : bool :=
  match k with
  | CChar a => Ascii.eqb c a
  | CDigit => is_digit c
  | CSpace => is_space c
  | CDot => negb (Ascii.eqb c "010")
  end.

Inductive regex : Type :=
| Void
| Eps
| Sym (k : cclass)
| Cat (r1 r2 : regex)
| Alt (r1 r2 : regex)
| Star (r : regex).

Definition Opt (r : regex) : regex := Alt r Eps.      (* r? *)
Definition Plus (r : regex) : regex := Cat r (Star r). (* r+ *)

Fixpoint Word (s : string) : regex :=
  match s with
  | EmptyString => Eps
  | String c s' => Cat (Sym (CChar c)) (Word s')
  end.

Fixpoint nullable (r : regex) : bool :=
  match r with
  | Void => false
  | Eps => true
  | Sym _ => false
  | Cat r1 r2 => nullable r1 && nullable r2
  | Alt r1 r2 => nullable r1 || nullable r2
  | Star _ => true
  end.

Fixpoint deriv (c : ascii) (r : regex) : regex :=
  match r with
  | Void => Void
  | Eps => Void
  | Sym k => if cmatch k c then Eps else Void
  | Cat r1 r2 =>
      if nullable r1 then Alt (Cat (deriv c r1) r2) (deriv c r2)
      else Cat (deriv c r1) r2
  | Alt r1 r2 => Alt (deriv c r1) (deriv c r2)
  | Star r1 => Cat (deriv c r1) (Star r1)
  end.

(** Some word of [r] starts [s]: [re.match(r, s)] is not [None]. *)
Fixpoint match_here (r : regex) (s : string) : bool :=
  nullable r ||
  match s with
  | EmptyString => false
  | String c s' => match_here (deriv c r) s'
  end.

(** [bool(re.search(r, s))]: some word of [r] starts somewhere in [s]. *)
Fixpoint search (r : regex) (s : string) : bool :=
  match_here r s ||
  match s with
  | EmptyString => false
  | String _ s' => search r s'
  end.

(** Line 217:
    [money_regex = r"\$\d+(?:\.\d+)?|\d+(?:,\d+)?\s?(dollars|USD)"] *)
Definition money_regex : regex :=
  Alt
    (Cat (Sym (CChar "$"))
      (Cat (Plus (Sym CDigit))
           (Opt (Cat (Sym (CChar ".")) (Plus (Sym CDigit))))))
    (Cat (Plus (Sym CDigit))
      (Cat (Opt (Cat (Sym (CChar ",")) (Plus (Sym CDigit))))
        (Cat (Opt (Sym CSpace))
             (Alt (Word "dollars") (Word "USD"))))).

(** *** The search phrase as a pattern

    [Series.str.count(pat)] compiles [pat] with [re.compile] and counts
    [findall].  The patterns modelled are those made of ordinary characters
    and dots; each matches words of one length, so a match found at a
    position is the only one there. *)

(** The characters [re] gives a meaning of their own. *)
Definition is_special (c : ascii) : bool :=
  existsb (Ascii.eqb c)
    ["."; "^"; "$"; "*"; "+"; "?"; "{"; "}"; "["; "]"; "\"; "|"; "("; ")"]%char.

Fixpoint compile_phrase (pat : string) : option (list cclass) :=
  match pat with
  | EmptyString => Some []
  | String c pat' =>
      if Ascii.eqb c "." then option_map (cons CDot) (compile_phrase pat')
      else if is_special c then None
      else option_map (cons (CChar c)) (compile_phrase pat')
  end.

Fixpoint atoms_match (p : list cclass) (s : string) : bool :=
  match p, s with
  | [], _ => true
  | k :: p', String c s' => cmatch k c && atoms_match p' s'
  | _ :: _, EmptyString => false
  end.

(** [len(findall)]: matches found left to right, the scan resuming after
    the end of each one found. *)
Fixpoint findall_skip (p : list cclass) (s : string) (skip : nat) : nat :=
  match s with
  | EmptyString => 0
  | String _ s' =>
      match skip with
      | S k => findall_skip p s' k
      | O => if atoms_match p s
             then S (findall_skip p s' (List.length p - 1))
             else findall_skip p s' 0
      end
  end.

(** The empty pattern matches before every character and at the end. *)
Definition findall_count (p : list cclass) (s : string) : nat :=
  match p with
  | [] => S (String.length s)
  | _ => findall_skip p s 0
  end.

End Regex.

(** ** The browser, the log and the file system *)

(** One [li] of the results list.  A field is [None] when [find_element]
    finds no such element under the entry (NoSuchElementException); the
    image is [Some None] when the element is there without a [src]. *)
Record Entry : Type := mk_entry {
  e_timestamp : option string;            (* p.promo-timestamp *)
  e_title : option string;                (* h3.promo-title *)
  e_description : option string;          (* p.promo-description *)
  e_image : option (option string)        (* img.image, attribute src *)
}.

(** One result page as the browser shows it. *)
Record Page : Type := mk_page {
  p_results : list Entry;     (* the [li] elements; none located = [] *)
  p_next_present : bool;      (* the next-page control is in the page *)
  p_next_clickable : bool     (* ... and becomes clickable within 10 s *)
}.

Inductive log_entry : Type :=
| LogError (msg : string) (e : exn)
| LogWarning (category : string) (available : list string).

Record DataFrame : Type := mk_frame {
  Date : list datetime;
  Title : list string;
  Description : list string;
  Picture_Filename : list (option string)
}.

(** The frame after [_add_columns]. *)
Record EnrichedFrame : Type := mk_enriched {
  base : DataFrame;
  search_phrase : list string;
  search_phrase_count : list nat;
  has_money : list bool
}.

(** What the run meets outside the program: the site, the clock, the disk
    and the part of [re] that is not modelled here. *)
Record World : Type := mk_world {
  w_today : datetime;              (* dt.datetime.today() in _extract_data *)
  w_pages : list Page;             (* result pages, in the order visited *)
  w_search_button : bool;          (* search button clickable within 10 s *)
  w_search_box : bool;             (* search box present within 10 s *)
  w_sort_select : bool;            (* the select-input element exists *)
  w_filter_button : bool;
  w_see_all_button : bool;
  w_labels : list string;          (* texts of the checkbox labels *)
  w_apply_button : bool;
  w_today_save : datetime;         (* dt.datetime.today() in _save_results *)
  w_makedirs : bool;               (* os.makedirs succeeds *)
  w_to_excel : bool;               (* DataFrame.to_excel succeeds *)
  w_re_count : string -> string -> result nat
    (* len(re.compile(pat).findall(s)) for the patterns that
       [Regex.compile_phrase] leaves aside *)
}.

Record State : Type := mk_state {
  st_page : nat;                   (* index of the result page shown *)
  st_query : option string;        (* text sent to the search box *)
  st_checked : list string;        (* category boxes clicked *)
  st_log : list log_entry;         (* oldest first *)
  st_folders : list string;        (* folders that exist *)
  st_files : list (string * EnrichedFrame);  (* most recent write first *)
  st_quit : bool                   (* driver.quit() was called *)
}.

Definition init_state : State :=
  mk_state 0 None [] [] [] [] false.

(** ** A state and exception monad *)

Definition M (A : Type) : Type := State -> result A * State.

Definition ret {A} (a : A) : M A := fun s => (ok a, s).
Definition raise {A} (e : exn) : M A := fun s => (throw e, s).
Definition lift {A} (r : result A) : M A := fun s => (r, s).

Definition bind {A B} (m : M A) (k : A -> M B) : M B :=
  fun s =>
    match m s with
    | (inl e, s') => (inl e, s')
    | (inr a, s') => k a s'
    end.

Notation "x <- m ;; k" := (bind m (fun x => k))
  (at level 61, m at next level, right associativity).
Notation "m ;;; k" := (bind m (fun _ => k))
  (at level 61, right associativity).

(** [try: m  except Exception as e: h e] *)
Definition try_except {A} (m : M A) (h : exn -> M A) : M A :=
  fun s =>
    match m s with
    | (inl e, s') => h e s'
    | (inr a, s') => (inr a, s')
    end.

(** [try: m  finally: f]: [f] runs in every case; what [m] raised is raised
    again after it unless [f] raises itself. *)
Definition try_finally {A} (m : M A) (f : M unit) : M A :=
  fun s =>
    match m s with
    | (r, s') =>
        match f s' with
        | (inl e, s'') => (inl e, s'')
        | (inr _, s'') => (r, s'')
        end
    end.

Definition modify (f : State -> State) : M unit := fun s => (ok tt, f s).

Definition with_page (s : State) (n : nat) : State :=
  mk_state n (st_query s) (st_checked s) (st_log s)
           (st_folders s) (st_files s) (st_quit s).

Definition with_log (s : State) (l : list log_entry) : State :=
  mk_state (st_page s) (st_query s) (st_checked s) l
           (st_folders s) (st_files s) (st_quit s).

(** [self.logger.error(f'{msg}{e}')] *)
Definition logger_error (msg : string) (e : exn) : M unit :=
  modify (fun s => with_log s (st_log s ++ [LogError msg e])).

Definition logger_warning (category : string) (available : list string)
  : M unit :=
  modify (fun s => with_log s (st_log s ++ [LogWarning category available])).

(** [WebDriverWait(self.driver, t).until(cond)] for a condition that the
    world answers with [b]. *)
Definition wait_until (b : bool) : M unit :=
  if b then ret tt else raise TimeoutException.

(** ** [_extract_data] *)

(** The four lists of line 149. *)
Record Acc : Type := mk_acc {
  title_ls : list string;
  date_ls : list datetime;
  description_ls : list string;
  picture_ls : list (option string)
}.

Definition empty_acc : Acc := mk_acc [] [] [] [].

(** [pd.DataFrame({'Date': date_ls, 'Title': title_ls, ...})]: pandas
    refuses columns of different lengths. *)
Definition pd_DataFrame (a : Acc) : result DataFrame :=
  if (List.length (date_ls a) =? List.length (title_ls a))
     && (List.length (title_ls a) =? List.length (description_ls a))
     && (List.length (description_ls a) =? List.length (picture_ls a))
  then ok (mk_frame (date_ls a) (title_ls a) (description_ls a) (picture_ls a))
  else throw ValueError.

(** How the body of [for li in li_elements] ends: it falls through to the
    next entry, or it executes the [return] of line 172. *)
Inductive flow : Type :=
| Continue (a : Acc)
| Return (a : Acc).

Definition find_element {A} (field : option A) : result A :=
  match field with
  | Some x => ok x
  | None => throw NoSuchElementException
  end.

(** Lines 158-185, one entry. *)
Definition process_entry (today cutoff : datetime) (li : Entry) (a : Acc)
  : result flow :=
  rbind (find_element (e_timestamp li)) (fun text =>
  rbind (normalize today text) (fun date =>
  if datetime_lt date cutoff then ok (Return a)
  else
    let a1 := mk_acc (title_ls a) (date_ls a ++ [date])
                     (description_ls a) (picture_ls a) in
    rbind (find_element (e_title li)) (fun title =>
    let a2 := mk_acc (title_ls a1 ++ [title]) (date_ls a1)
                     (description_ls a1) (picture_ls a1) in
    rbind (find_element (e_description li)) (fun description =>
    let a3 := mk_acc (title_ls a2) (date_ls a2)
                     (description_ls a2 ++ [description]) (picture_ls a2) in
    rbind (find_element (e_image li)) (fun picture =>
    ok (Continue (mk_acc (title_ls a3) (date_ls a3) (description_ls a3)
                         (picture_ls a3 ++ [picture])))))))).

(** Lines 157-185, the entries of one page in order. *)
Fixpoint process_entries (today cutoff : datetime) (lis : list Entry)
  (a : Acc) : result flow :=
  match lis with
  | [] => ok (Continue a)
  | li :: rest =>
      rbind (process_entry today cutoff li a) (fun r =>
      match r with
      | Return a' => ok (Return a')
      | Continue a' => process_entries today cutoff rest a'
      end)
  end.

Section Scraper.

Variable w : World.

Definition current_page : M (option Page) :=
  fun s => (ok (nth_error (w_pages w) (st_page s)), s).

(** Line 154: [presence_of_all_elements_located] gives the elements once
    there is at least one, and times out otherwise. *)
Definition wait_results : M (list Entry) :=
  p <- current_page ;;
  match p with
  | Some pg =>
      match p_results pg with
      | [] => raise TimeoutException
      | lis => ret lis
      end
  | None => raise TimeoutException
  end.

(** Line 188: wait for the next-page control of the page shown. *)
Definition wait_next_clickable : M unit :=
  p <- current_page ;;
  match p with
  | Some pg => wait_until (p_next_clickable pg)
  | None => raise TimeoutException
  end.

(** Line 189: [next_page.click()]. *)
Definition click_next : M unit :=
  modify (fun s => with_page s (S (st_page s))).

(** Line 192: wait for the control to be present in the page arrived at. *)
Definition wait_next_present : M unit :=
  p <- current_page ;;
  match p with
  | Some pg => wait_until (p_next_present pg)
  | None => raise TimeoutException
  end.

(** Lines 153-192: [n] is the number of iterations of [for _ in range(9)]
    still to run.  The result is the accumulator at the [return] taken,
    line 172 or line 194. *)
Fixpoint pages_loop (today cutoff : datetime) (n : nat) (a : Acc) : M Acc :=
  match n with
  | O => ret a
  | S n' =>
      li_elements <- wait_results ;;
      r <- lift (process_entries today cutoff li_elements a) ;;
      match r with
      | Return a' => ret a'
      | Continue a' =>
          wait_next_clickable ;;;
          click_next ;;;
          wait_next_present ;;;
          pages_loop today cutoff n' a'
      end
  end.

Definition max_pages : nat := 9.

(** Lines 147-194, the body of the [try]. *)
Definition extract_body (months_back : Z) : M DataFrame :=
  let today := w_today w in
  cutoff <- lift (date_min today months_back) ;;
  a <- pages_loop today cutoff max_pages empty_acc ;;
  lift (pd_DataFrame a).

Definition extract_msg : string := "Error occurred while extracting data: ".

(** Lines 146-198.  The handler logs and falls off the end of the
    function, so the call evaluates to [None]. *)
Definition _extract_data (months_back : Z) : M (option DataFrame) :=
  try_except
    (df <- extract_body months_back ;; ret (Some df))
    (fun e => logger_error extract_msg e ;;; ret None).

End Scraper.

(** ** [_add_columns] *)

Section Enrichment.

Variable w : World.

(** [re.compile(pat).findall(s)] counted, as [Series.str.count] does for
    one cell. *)
Definition str_count (pat s : string) : result nat :=
  match Regex.compile_phrase pat with
  | Some p => ok (Regex.findall_count p s)
  | None => w_re_count w pat s
  end.

(** [column.str.count(pat)] *)
Fixpoint str_count_column (pat : string) (column : list string)
  : result (list nat) :=
  match column with
  | [] => ok []
  | s :: rest =>
      rbind (str_count pat s) (fun n =>
      rbind (str_count_column pat rest) (fun ns => ok (n :: ns)))
  end.

(** The sum of two columns, row by row. *)
Fixpoint add_series (a b : list nat) : list nat :=
  match a, b with
  | x :: a', y :: b' => (x + y) :: add_series a' b'
  | _, _ => []
  end.

(** The lambda of line 222 on one row. *)
Definition row_has_money (title description : string) : bool :=
  Regex.search Regex.money_regex (title +++ " " +++ description).

Fixpoint has_money_column (titles descriptions : list string) : list bool :=
  match titles, descriptions with
  | t :: ts, d :: ds => row_has_money t d :: has_money_column ts ds
  | _, _ => []
  end.

(** Line 221 on one row. *)
Definition row_search_phrase_count (phrase title description : string)
  : result nat :=
  rbind (str_count (Text.lower phrase) (Text.lower title)) (fun a =>
  rbind (str_count (Text.lower phrase) (Text.lower description)) (fun b =>
  ok (a + b))).

(** Lines 216-223.  [data_articles] is [None] when [_extract_data] logged
    a failure; line 220 then assigns an item of [None].  On a frame without
    rows the [Title] column holds no string, and its [.str] accessor raises
    AttributeError at line 221. *)
Definition _add_columns (data_articles : option DataFrame) (phrase : string)
  : result EnrichedFrame :=
  match data_articles with
  | None => throw TypeError
  | Some df =>
      match Date df with
      | [] => throw AttributeError
      | _ :: _ =>
          let pat := Text.lower phrase in
          rbind (str_count_column pat (map Text.lower (Title df))) (fun ct =>
          rbind (str_count_column pat (map Text.lower (Description df)))
                (fun cd =>
          ok (mk_enriched df
                (repeat phrase (List.length (Date df)))
                (add_series ct cd)
                (has_money_column (Title df) (Description df)))))
      end
  end.

End Enrichment.

(** ** [_search], [_filter_categories], [_save_results] and [scrape] *)

Definition set_query (q : string) : M unit :=
  modify (fun s => mk_state (st_page s) (Some q) (st_checked s) (st_log s)
                     (st_folders s) (st_files s) (st_quit s)).

Definition click_checkbox (category : string) : M unit :=
  modify (fun s => mk_state (st_page s) (st_query s)
                     (st_checked s ++ [category]) (st_log s)
                     (st_folders s) (st_files s) (st_quit s)).

Definition add_folder (folder : string) : M unit :=
  modify (fun s => mk_state (st_page s) (st_query s) (st_checked s) (st_log s)
                     (folder :: st_folders s) (st_files s) (st_quit s)).

Definition write_file (path : string) (df : EnrichedFrame) : M unit :=
  modify (fun s => mk_state (st_page s) (st_query s) (st_checked s) (st_log s)
                     (st_folders s) ((path, df) :: st_files s) (st_quit s)).

(** [self.driver.quit()] *)
Definition with_quit (s : State) : State :=
  mk_state (st_page s) (st_query s) (st_checked s) (st_log s)
           (st_folders s) (st_files s) true.

Definition driver_quit : M unit := modify with_quit.

Definition digit_char (n : Z) : ascii :=
  ascii_of_nat (48 + Z.to_nat (n mod 10)).

Definition pad2 (n : Z) : string :=
  String (digit_char (n / 10)) (String (digit_char n) EmptyString).

(** [%Y] for the years 1 to 9999 of a datetime: the year in decimal,
    without padding. *)
Definition year_digits (y : Z) : string :=
  (if y <? 10 then String (digit_char y) EmptyString
   else if y <? 100 then pad2 y
   else if y <? 1000 then String (digit_char (y / 100)) (pad2 y)
   else pad2 (y / 100) +++ pad2 y)%Z.

(** [strftime('%Y%m%d')] *)
Definition strftime_Ymd (t : datetime) : string :=
  year_digits (year t) +++ pad2 (month t) +++ pad2 (day t).

(** [s.replace(a, b)] for one-character [a] and [b]. *)
Fixpoint replace_char (a b : ascii) (s : string) : string :=
  match s with
  | EmptyString => EmptyString
  | String c s' =>
      String (if Ascii.eqb c a then b else c) (replace_char a b s')
  end.

Section Scrape.

Variable w : World.

Definition search_msg : string := "Error occurred while searching: ".
Definition filter_msg : string := "Error occurred while filtering categories: ".
Definition save_msg : string := "Error occurred while saving results: ".
Definition scrape_msg : string := "An error occurred: ".

(** Lines 69-82. *)
Definition search_body (phrase : string) : M unit :=
  wait_until (w_search_button w) ;;;
  wait_until (w_search_box w) ;;;
  set_query phrase ;;;
  (if w_sort_select w then ret tt else raise NoSuchElementException).

(** Lines 68-85. *)
Definition _search (phrase : string) : M unit :=
  try_except (search_body phrase) (fun e => logger_error search_msg e).

(** Lines 114-121. *)
Fixpoint select_categories (categories : list string) : M unit :=
  match categories with
  | [] => ret tt
  | category :: rest =>
      (if existsb (String.eqb category) (w_labels w)
       then click_checkbox category
       else logger_warning category (w_labels w)) ;;;
      select_categories rest
  end.

(** Lines 101-126. *)
Definition filter_body (categories : list string) : M unit :=
  wait_until (w_filter_button w) ;;;
  wait_until (w_see_all_button w) ;;;
  select_categories categories ;;;
  wait_until (w_apply_button w).

(** Lines 99-129. *)
Definition _filter_categories (categories : list string) : M unit :=
  match categories with
  | [] => ret tt
  | _ => try_except (filter_body categories)
                    (fun e => logger_error filter_msg e)
  end.

Definition folder_exists (folder : string) : M bool :=
  fun s => (ok (existsb (String.eqb folder) (st_folders s)), s).

Definition output_path (folder phrase : string) (today : string) : string :=
  folder +++ "/" +++ replace_char " " "_" phrase +++ "_" +++ today +++ ".xlsx".

(** Lines 243-249. *)
Definition save_body (df : EnrichedFrame) (phrase folder : string) : M unit :=
  let today := strftime_Ymd (w_today_save w) in
  present <- folder_exists folder ;;
  (if present then ret tt
   else if w_makedirs w then add_folder folder else raise OSError) ;;;
  (if w_to_excel w then write_file (output_path folder phrase today) df
   else raise OSError).

(** Lines 242-252. *)
Definition _save_results (df : EnrichedFrame) (phrase folder : string)
  : M unit :=
  try_except (save_body df phrase folder)
             (fun e => logger_error save_msg e).

(** Lines 273-285, the body of the [try] of [scrape]. *)
Definition scrape_body (phrase : string) (categories : list string)
  (months_back : Z) (output_folder : string) : M unit :=
  _search phrase ;;;
  _filter_categories categories ;;;
  data_articles <- _extract_data w months_back ;;
  data_articles_with_columns <- lift (_add_columns w data_articles phrase) ;;
  _save_results data_articles_with_columns phrase output_folder.

(** Lines 271-291. *)
Definition scrape (phrase : string) (categories : list string)
  (months_back : Z) (output_folder : string) : M unit :=
  try_finally
    (try_except (scrape_body phrase categories months_back output_folder)
                (fun e => logger_error scrape_msg e))
    driver_quit.

End Scrape.

(** ** Vocabulary of the statements *)

(** A character that does not occur in [sub]. *)
Fixpoint free_of (c : ascii) (sub : string) : bool :=
  match sub with
  | EmptyString => true
  | String a sub' => negb (Ascii.eqb a c) && free_of c sub'
  end.

(** The two attempts of lines 164-167 on a text already stripped. *)
Definition parse_long_then_abbr (date : string) : result datetime :=
  match Strptime.strptime date Strptime.fmt_long with
  | inr d => ok d
  | inl _ => Strptime.strptime date Strptime.fmt_abbr
  end.

(** C4 as the specification words it: the test for "ago" is made on the raw
    text, and only the other texts are stripped and parsed. *)
Definition normalize_as_stated : Prop :=
  forall (raw : string) (now : datetime),
    (Text.contains "ago" raw = true -> normalize now raw = ok now) /\
    (Text.contains "ago" raw = false ->
     normalize now raw = parse_long_then_abbr (Text.remove_char "." raw)).

(** One row of the table: what a complete entry contributes. *)
Record Row : Type := mk_row {
  r_date : datetime;
  r_title : string;
  r_description : string;
  r_picture : option string
}.

Definition append_row (a : Acc) (r : Row) : Acc :=
  mk_acc (title_ls a ++ [r_title r]) (date_ls a ++ [r_date r])
         (description_ls a ++ [r_description r])
         (picture_ls a ++ [r_picture r]).

Definition append_rows (a : Acc) (rows : list Row) : Acc :=
  fold_left append_row rows a.

Definition frame_of_rows (rows : list Row) : DataFrame :=
  mk_frame (map r_date rows) (map r_title rows)
           (map r_description rows) (map r_picture rows).

(** The row of an entry that has its four elements and a date that
    normalises. *)
Definition entry_row (today : datetime) (li : Entry) : option Row :=
  match e_timestamp li, e_title li, e_description li, e_image li with
  | Some text, Some t, Some d, Some p =>
      match normalize today text with
      | inr date => Some (mk_row date t d p)
      | inl _ => None
      end
  | _, _, _, _ => None
  end.

(** The rows of entries that are all complete and none below the cutoff. *)
Fixpoint rows_of (today cutoff : datetime) (lis : list Entry)
  : option (list Row) :=
  match lis with
  | [] => Some []
  | li :: rest =>
      match entry_row today li with
      | Some r =>
          if datetime_lt (r_date r) cutoff then None
          else option_map (cons r) (rows_of today cutoff rest)
      | None => None
      end
  end.

(** The first [k] of [pages] are each read to the end and left through the
    next-page control: a page has entries, all of them kept, its control
    becomes clickable and the control is present in the page that follows.
    The value is the rows read. *)
Fixpoint consumed (today cutoff : datetime) (pages : list Page) (k : nat)
  {struct k} : option (list Row) :=
  match k with
  | O => Some []
  | S k' =>
      match pages with
      | p :: ((p' :: _) as rest) =>
          match p_results p, rows_of today cutoff (p_results p) with
          | _ :: _, Some rows =>
              if p_next_clickable p && p_next_present p'
              then option_map (app rows) (consumed today cutoff rest k')
              else None
          | _, _ => None
          end
      | _ => None
      end
  end.

(** The entries of the [n] pages from position [pos] on, in page-then-
    listing order. *)
Definition entries_from (pages : list Page) (pos n : nat) : list Entry :=
  List.concat (map p_results (firstn n (skipn pos pages))).

Definition flow_acc (r : flow) : Acc :=
  match r with
  | Continue a => a
  | Return a => a
  end.

(** [row] is what the entry [li] contributes to the table. *)
Definition row_of_entry (today : datetime) (li : Entry) (row : Row) : Prop :=
  entry_row today li = Some row.

(** The date of [row] is not below the cutoff. *)
Definition not_below (cutoff : datetime) (row : Row) : Prop :=
  datetime_lt (r_date row) cutoff = false.

(** The state after the handler of [_extract_data] has logged [e]. *)
Definition log_failure (s : State) (e : exn) : State :=
  with_log s (st_log s ++ [LogError extract_msg e]).

(** A stage leaves the browser on its page and the disk as it was. *)
Definition same_place (s s1 : State) : Prop :=
  st_page s1 = st_page s /\ st_files s1 = st_files s.

(** The state after a handler has logged [e] under [msg]. *)
Definition logged (s : State) (msg : string) (e : exn) : State :=
  with_log s (st_log s ++ [LogError msg e]).

Definition equal_lengths (df : DataFrame) : Prop :=
  List.length (Date df) = List.length (Title df) /\
  List.length (Title df) = List.length (Description df) /\
  List.length (Description df) = List.length (Picture_Filename df).

(** The words of a regular expression. *)
Inductive Matches : Regex.regex -> string -> Prop :=
| MEps : Matches Regex.Eps EmptyString
| MSym k c : Regex.cmatch k c = true ->
             Matches (Regex.Sym k) (String c EmptyString)
| MCat r1 r2 s1 s2 : Matches r1 s1 -> Matches r2 s2 ->
                     Matches (Regex.Cat r1 r2) (s1 +++ s2)
| MAltL r1 r2 s : Matches r1 s -> Matches (Regex.Alt r1 r2) s
| MAltR r1 r2 s : Matches r2 s -> Matches (Regex.Alt r1 r2) s
| MStar0 r : Matches (Regex.Star r) EmptyString
| MStarS r s1 s2 : Matches r s1 -> Matches (Regex.Star r) s2 ->
                   Matches (Regex.Star r) (s1 +++ s2).

Fixpoint all_digits (s : string) : bool :=
  match s with
  | EmptyString => true
  | String c s' => Text.is_digit c && all_digits s'
  end.

(** A number: one digit or more. *)
Definition is_number (s : string) : bool :=
  match s with
  | EmptyString => false
  | String _ _ => all_digits s
  end.

(** A currency mention, after the words of the specification: a number
    with a dollar sign before it and possibly a decimal fraction after it,
    or a number (possibly with one comma group) followed, directly or after
    one blank, by the word "dollars" or "USD". *)
Inductive currency_mention : string -> Prop :=
| dollar_amount n :
    is_number n = true -> currency_mention ("$" +++ n)
| dollar_amount_fraction n f :
    is_number n = true -> is_number f = true ->
    currency_mention ("$" +++ n +++ "." +++ f)
| amount_word n word :
    is_number n = true -> word = "dollars" \/ word = "USD" ->
    currency_mention (n +++ word)
| amount_blank_word n c word :
    is_number n = true -> Text.is_space c = true ->
    word = "dollars" \/ word = "USD" ->
    currency_mention (n +++ String c word)
| amount_group_word n g word :
    is_number n = true -> is_number g = true ->
    word = "dollars" \/ word = "USD" ->
    currency_mention (n +++ "," +++ g +++ word)
| amount_group_blank_word n g c word :
    is_number n = true -> is_number g = true -> Text.is_space c = true ->
    word = "dollars" \/ word = "USD" ->
    currency_mention (n +++ "," +++ g +++ String c word).

(** [m] occurs in [s]. *)
Definition occurs_in (m s : string) : Prop :=
  exists pre post, s = pre +++ m +++ post.

(** A phrase without any of the characters [re] gives a meaning to. *)
Fixpoint plain (pat : string) : bool :=
  match pat with
  | EmptyString => true
  | String c pat' => negb (Regex.is_special c) && plain pat'
  end.

Fixpoint literal_atoms (pat : string) : list Regex.cclass :=
  match pat with
  | EmptyString => []
  | String c pat' => Regex.CChar c :: literal_atoms pat'
  end.

(** [category in ls_categories] of line 115. *)
Definition known (w : World) (category : string) : bool :=
  existsb (String.eqb category) (w_labels w).

Definition unknown (w : World) (category : string) : bool :=
  negb (known w category).

(** The clock has a day of the month and a time of day. *)
Definition valid_clock (t : datetime) : Prop :=
  (1 <= day t /\ 0 <= hour t /\ 0 <= minute t /\ 0 <= second t
   /\ 0 <= microsecond t)%Z.

(** One of the three elements looked up after the date is not there. *)
Definition lacks_element (li : Entry) : Prop :=
  e_title li = None \/ e_description li = None \/ e_image li = None.

(** The state [s] brought to what a run started on a fresh state left:
    its page, and its log lines after those of [s]. *)
Definition transplant (s s0 : State) : State :=
  with_log (with_page s (st_page s0)) (st_log s ++ st_log s0).

(** A fresh state showing the page of [s]. *)
Definition fresh_at (s : State) : State := with_page init_state (st_page s).

Fixpoint no_digit (s : string) : bool :=
  match s with
  | EmptyString => true
  | String c s' => negb (Text.is_digit c) && no_digit s'
  end.

(** A stage leaves the page, the folders and the files as they were. *)
Definition untouched (s s1 : State) : Prop :=
  st_page s1 = st_page s /\ st_folders s1 = st_folders s /\
  st_files s1 = st_files s.

(** The state after [to_excel] has written [df] at [path], the folder
    made first when it was not there. *)
Definition saved (s : State) (folder path : string) (df : EnrichedFrame)
  : State :=
  mk_state (st_page s) (st_query s) (st_checked s) (st_log s)
    (if existsb (String.eqb folder) (st_folders s) then st_folders s
     else folder :: st_folders s)
    ((path, df) :: st_files s) (st_quit s).

(** The path of line 249 for the world's day of saving. *)
Definition save_path (w : World) (folder phrase : string) : string :=
  output_path folder phrase (strftime_Ymd (w_today_save w)).

(** *** The currency mention as the specification words it *)

(** Letters, digits and the underscore: the characters of a word. *)
Definition is_word_char (c : ascii) : bool :=
  let n := Text.code c in
  Text.is_digit c || ((65 <=? n) && (n <=? 90)) || ((97 <=? n) && (n <=? 122))
  || (n =? 95).

(** [word] stands at the head of [s] as a whole word: the character after
    it, if any, is not a character of a word. *)
Fixpoint word_here (word s : string) : bool :=
  match word, s with
  | EmptyString, EmptyString => true
  | EmptyString, String c _ => negb (is_word_char c)
  | String a word', String b s' => Ascii.eqb a b && word_here word' s'
  | String _ _, EmptyString => false
  end.

(** Blanks, then the word "dollars" or the word "USD". *)
Fixpoint blanks_then_word (s : string) : bool :=
  word_here "dollars" s || word_here "USD" s ||
  match s with
  | EmptyString => false
  | String c s' => Text.is_space c && blanks_then_word s'
  end.

(** "A dollar-sign-prefixed number optionally followed by a decimal
    fraction, or a number followed by the word dollars or USD", somewhere in
    [s]: a dollar sign and a digit, or a digit, a blank or more, and the
    word. *)
Fixpoint mention_as_worded (s : string) : bool :=
  match s with
  | EmptyString => false
  | String c s' =>
      (Ascii.eqb c "$" &&
       match s' with
       | String d _ => Text.is_digit d
       | EmptyString => false
       end)
      || (Text.is_digit c &&
          match s' with
          | String b s'' => Text.is_space b && blanks_then_word s''
          | EmptyString => false
          end)
      || mention_as_worded s'
  end.

(** C8 as the specification words it: the flag of each row of the enriched
    frame says whether such a mention is in the title, one space and the
    description put together. *)
Definition has_money_as_stated : Prop :=
  forall (w : World) (df : DataFrame) (phrase : string) (ef : EnrichedFrame)
         (i : nat) (t d : string),
    _add_columns w (Some df) phrase = ok ef ->
    nth_error (Title df) i = Some t ->
    nth_error (Description df) i = Some d ->
    nth_error (has_money ef) i = Some (mention_as_worded (t +++ " " +++ d)).

(** Fields far inside the range of a C int. *)
Definition modest (f : Strptime.fields) : Prop :=
  (0 <= Strptime.f_year f <= 1000000 /\ 0 <= Strptime.f_month f <= 1000000
   /\ 0 <= Strptime.f_day f <= 1000000)%Z.

(** The exception of line 148 for a month that is none: OverflowError when
    the year or the month does not fit a C int, ValueError otherwise. *)
Definition month_error (today : datetime) (months_back : Z) : exn :=
  if fits_c_int (year today) && fits_c_int (month today - months_back)
  then ValueError else OverflowError.

(** ** Sample runs *)

Module Sample.

Definition today : datetime := d20230815.

Definition recent : Entry :=
  mk_entry (Some "2 hours ago") (Some "dollars dollars") (Some "")
           (Some (Some "https://example.org/a.jpg")).

Definition august : Entry :=
  mk_entry (Some "Aug. 1, 2023") (Some "Argentina wins") (Some "cost $50")
           (Some (Some "https://example.org/b.jpg")).

(** Dated the cutoff of [months_back = 2] itself. *)
Definition on_cutoff : Entry :=
  mk_entry (Some "June 1, 2023") (Some "Argentina ties") (Some "")
           (Some None).

Definition old : Entry :=
  mk_entry (Some "Jan. 1, 2023") (Some "Old news") (Some "") (Some None).

Definition bad_date : Entry :=
  mk_entry (Some "Sept. 3, 2023") (Some "Argentina again") (Some "")
           (Some None).

Definition no_regex (pat s : string) : result nat := throw ReError.

Definition world (pages : list Page) : World :=
  mk_world today pages true true true true true ["World & Nation"] true
           today true true no_regex.

(** Two pages; the second one meets an entry below the cutoff. *)
Definition two_pages : World :=
  world [mk_page [recent; august] true true;
         mk_page [on_cutoff; old; august] true true].

(** The only page of results: its next-page control never gets clickable. *)
Definition last_page : World :=
  world [mk_page [recent; august] true false].

(** The second page has an entry whose date is in neither format. *)
Definition unparsable : World :=
  world [mk_page [recent; august] true true;
         mk_page [on_cutoff; bad_date; august] true true].

(** In February with [months_back = 2] line 148 asks for month 0. *)
Definition february : World :=
  mk_world (mk_datetime 2023 2 10 9 0 0 0)
           [mk_page [recent; august] true true]
           true true true true true ["World & Nation"] true
           (mk_datetime 2023 2 10 9 0 0 0) true true no_regex.

(** An article without a picture. *)
Definition no_image : Entry :=
  mk_entry (Some "Aug. 2, 2023") (Some "Argentina votes") (Some "") None.

Definition imageless : World :=
  world [mk_page [recent; no_image; august] true true].

(** A search without results. *)
Definition no_results : World := world [mk_page [] false false].

(** Ten pages of recent entries. *)
Definition ten_pages : World :=
  world (repeat (mk_page [recent; august] true true) 10).

Definition row_recent : Row :=
  mk_row today "dollars dollars" "" (Some "https://example.org/a.jpg").
Definition row_august : Row :=
  mk_row (mk_datetime 2023 8 1 0 0 0 0) "Argentina wins" "cost $50"
         (Some "https://example.org/b.jpg").
Definition row_on_cutoff : Row :=
  mk_row (mk_datetime 2023 6 1 0 0 0 0) "Argentina ties" "" None.


(** Frames of one row, for the flag of a title. *)
Definition one_row (title description : string) : DataFrame :=
  mk_frame [today] [title] [description] [None].

End Sample.

(** * Properties *)

(** ** Text lemmas *)

Lemma prefix_cons (a b : ascii) (s t : string) :
  prefix (String a s) (String b t) = true <-> a = b /\ prefix s t = true.
Proof.
  simpl. destruct (ascii_dec a b) as [Heq | Hne].
  - split; [intro H; now split | now intros [_ H]].
  - split; [discriminate | intros [Heq _]; contradiction].
Qed.

Lemma prefix_empty (s : string) : prefix EmptyString s = true.
Proof. now destruct s. Qed.

Lemma contains_cons (sub : string) (a : ascii) (s : string) :
  Text.contains sub s = true -> Text.contains sub (String a s) = true.
Proof.
  intro H. change (Text.contains sub (String a s))
    with (prefix sub (String a s) || Text.contains sub s).
  rewrite H. apply orb_true_r.
Qed.

Lemma prefix_remove_char (c : ascii) (sub : string) :
  free_of c sub = true ->
  forall s, prefix sub s = true -> prefix sub (Text.remove_char c s) = true.
Proof.
  induction sub as [| a sub IH]; intros Hfree s Hp.
  - apply prefix_empty.
  - simpl in Hfree. apply andb_true_iff in Hfree as [Ha Hfree].
    destruct s as [| b s]; [discriminate |].
    apply prefix_cons in Hp as [<- Hp].
    simpl. destruct (Ascii.eqb a c) eqn:E; [discriminate |].
    apply prefix_cons. split; [reflexivity | now apply IH].
Qed.

Lemma contains_remove_char (c : ascii) (sub : string) :
  free_of c sub = true ->
  forall s, Text.contains sub s = true ->
            Text.contains sub (Text.remove_char c s) = true.
Proof.
  intros Hfree s. induction s as [| a s IH]; intro H.
  - exact H.
  - change (prefix sub (String a s) || Text.contains sub s = true) in H.
    apply orb_true_iff in H as [Hp | Hc].
    + destruct sub as [| b sub]; [now destruct (Text.remove_char c (String a s)) |].
      pose proof (prefix_remove_char c (String b sub) Hfree _ Hp) as Hq.
      destruct (Text.remove_char c (String a s)) as [| x t] eqn:E;
        [discriminate |].
      change (prefix (String b sub) (String x t)
              || Text.contains (String b sub) t = true).
      now rewrite Hq.
    + specialize (IH Hc). simpl.
      destruct (Ascii.eqb a c); [exact IH | now apply contains_cons].
Qed.

Lemma remove_char_app (c : ascii) (s t : string) :
  Text.remove_char c (s +++ t) = Text.remove_char c s +++ Text.remove_char c t.
Proof.
  induction s as [| a s IH]; simpl; [reflexivity |].
  destruct (Ascii.eqb a c); simpl; now rewrite IH.
Qed.

Lemma append_empty_r (s : string) : s +++ EmptyString = s.
Proof. induction s as [| a s IH]; simpl; [reflexivity | now rewrite IH]. Qed.

(** ** Dates *)

Example normalize_long :
  normalize d20230815 "August 3, 2023" = ok (mk_datetime 2023 8 3 0 0 0 0).
Proof. reflexivity. Qed.

Example normalize_abbr_dot :
  normalize d20230815 "Aug. 3, 2023" = ok (mk_datetime 2023 8 3 0 0 0 0).
Proof. reflexivity. Qed.

Example normalize_ago :
  normalize d20230815 "2 hours ago" = ok d20230815.
Proof. reflexivity. Qed.

Example normalize_bad :
  normalize d20230815 "Sept. 3, 2023" = throw ValueError.
Proof. reflexivity. Qed.


Lemma datetime_new_raises (y m d : Z) (e : exn) :
  fits_c_int y && fits_c_int m && fits_c_int d = true ->
  datetime_new y m d = throw e -> e = ValueError.
Proof.
  intro Hfit. unfold datetime_new. rewrite Hfit. clear Hfit.
  destruct (_ && _)%bool; [discriminate |].
  intro H. now injection H.
Qed.

Lemma digit_value_bound (c : ascii) : (0 <= Text.digit_value c <= 255)%Z.
Proof.
  unfold Text.digit_value, Text.code.
  pose proof (nat_ascii_bounded c). lia.
Qed.

Lemma match_name_month (names : list (string * Z)) (s rest : string)
  (m : Z) :
  Strptime.match_name names s = Some (m, rest) -> In m (map snd names).
Proof.
  induction names as [| [name k] names IH]; [discriminate |].
  simpl. destruct (Strptime.iprefix name s).
  - intro H. injection H as -> _. now left.
  - intro H. right. now apply IH.
Qed.

Lemma match_day_bound (s rest : string) (d : Z) :
  Strptime.match_day s = Some (d, rest) -> (0 <= d <= 1000000)%Z.
Proof.
  unfold Strptime.match_day.
  destruct s as [| a [| b s]]; [discriminate | |].
  - destruct (Strptime.nonzero_digit a); [| discriminate].
    intro Eq. injection Eq as <- _. pose proof (digit_value_bound a). lia.
  - pose proof (digit_value_bound a). pose proof (digit_value_bound b).
    remember (10 * Text.digit_value a + Text.digit_value b)%Z as v eqn:Ev.
    destruct (Strptime.two_digit_day a b).
    + intro Eq. injection Eq as <- _. lia.
    + destruct (Strptime.nonzero_digit a); [| discriminate].
      intro Eq. injection Eq as <- _. lia.
Qed.

Lemma match_year_bound (s rest : string) (y : Z) :
  Strptime.match_year s = Some (y, rest) -> (0 <= y <= 1000000)%Z.
Proof.
  unfold Strptime.match_year.
  destruct s as [| a [| b [| c [| d s]]]]; try discriminate.
  pose proof (digit_value_bound a). pose proof (digit_value_bound b).
  pose proof (digit_value_bound c). pose proof (digit_value_bound d).
  remember (1000 * Text.digit_value a + 100 * Text.digit_value b
            + 10 * Text.digit_value c + Text.digit_value d)%Z as v eqn:Ev.
  destruct (_ && _)%bool; [| discriminate].
  intro Eq. injection Eq as <- _. lia.
Qed.

Lemma parse_modest (fmt : list Strptime.directive) :
  forall (s : string) (acc f : Strptime.fields),
    modest acc -> Strptime.parse fmt s acc = Some f -> modest f.
Proof.
  induction fmt as [| d fmt IH]; intros s acc f Hacc H.
  - simpl in H. destruct s; [| discriminate]. now injection H as <-.
  - destruct Hacc as (Hy & Hm & Hd). destruct d; cbn [Strptime.parse] in H.
    + destruct (Strptime.match_name Strptime.full_months s) as [[m rest] |]
        eqn:E; [| discriminate].
      apply match_name_month in E. apply (IH _ _ _) in H; [exact H |].
      unfold modest. cbn [Strptime.f_year Strptime.f_month Strptime.f_day].
      simpl in E. intuition lia.
    + destruct (Strptime.match_name Strptime.abbr_months s) as [[m rest] |]
        eqn:E; [| discriminate].
      apply match_name_month in E. apply (IH _ _ _) in H; [exact H |].
      unfold modest. cbn [Strptime.f_year Strptime.f_month Strptime.f_day].
      simpl in E. intuition lia.
    + destruct (Strptime.match_day s) as [[n rest] |] eqn:E; [| discriminate].
      apply match_day_bound in E. apply (IH _ _ _) in H; [exact H |].
      unfold modest. cbn [Strptime.f_year Strptime.f_month Strptime.f_day].
      lia.
    + destruct (Strptime.match_year s) as [[n rest] |] eqn:E;
        [| discriminate].
      apply match_year_bound in E. apply (IH _ _ _) in H; [exact H |].
      unfold modest. cbn [Strptime.f_year Strptime.f_month Strptime.f_day].
      lia.
    + destruct s as [| c s]; [discriminate |].
      destruct (Text.is_space c); [| discriminate].
      apply (IH _ _ _) in H; [exact H | now repeat split].
    + destruct s as [| a s]; [discriminate |].
      destruct (Ascii.eqb a c); [| discriminate].
      apply (IH _ _ _) in H; [exact H | now repeat split].
Qed.

Lemma modest_fits (f : Strptime.fields) :
  modest f ->
  fits_c_int (Strptime.f_year f) && fits_c_int (Strptime.f_month f)
  && fits_c_int (Strptime.f_day f) = true.
Proof.
  intros (Hy & Hm & Hd). unfold fits_c_int.
  repeat (apply andb_true_intro; split); apply Z.leb_le; lia.
Qed.

Lemma strptime_raises (s : string) (fmt : list Strptime.directive) (e : exn) :
  Strptime.strptime s fmt = throw e -> e = ValueError.
Proof.
  unfold Strptime.strptime.
  destruct (Strptime.parse fmt s Strptime.defaults) as [f |] eqn:E.
  - apply datetime_new_raises, modest_fits.
    apply (parse_modest fmt s Strptime.defaults f); [| exact E].
    unfold modest. simpl. lia.
  - intro H. now injection H.
Qed.

Lemma normalize_unfold (today : datetime) (text : string) :
  normalize today text =
  if Text.contains "ago" (Text.remove_char "." text) then ok today
  else parse_long_then_abbr (Text.remove_char "." text).
Proof.
  unfold normalize, parse_long_then_abbr.
  destruct (Text.contains _ _); [reflexivity |].
  destruct (Strptime.strptime _ Strptime.fmt_long) as [e | d] eqn:E;
    [| reflexivity].
  apply strptime_raises in E. now subst e.
Qed.

(** C4, counterexample: the text "a.go" does not contain "ago", yet line 160
    strips the period before line 161 looks for "ago", so the entry gets
    today's date where the claim has it parsed (and refused). *)
Lemma normalize_as_stated_fails : ~ normalize_as_stated.
Proof.
  intro H. destruct (H "a.go" d20230815) as [_ Hparse].
  specialize (Hparse eq_refl). vm_compute in Hparse. discriminate Hparse.
Qed.

(** C4, amended: the periods are stripped first; if the stripped text
    contains "ago" (in particular if the raw text does) the date is [now];
    otherwise the stripped text is parsed in the long form first and in the
    abbreviated form when that fails; two texts that differ only in their
    periods, such as a text and the same text with a period after it, get
    the same date. *)
Theorem normalize_strips_then_parses (raw : string) (now : datetime) :
  let stripped := Text.remove_char "." raw in
  (Text.contains "ago" raw = true -> normalize now raw = ok now) /\
  (Text.contains "ago" stripped = true -> normalize now raw = ok now) /\
  (Text.contains "ago" stripped = false ->
   normalize now raw = parse_long_then_abbr stripped) /\
  (forall raw', Text.remove_char "." raw' = stripped ->
                normalize now raw' = normalize now raw) /\
  normalize now (raw +++ ".") = normalize now raw.
Proof.
  intro stripped. subst stripped.
  repeat split.
  - intro H. rewrite normalize_unfold.
    now rewrite (contains_remove_char "." "ago" eq_refl raw H).
  - intro H. rewrite normalize_unfold. now rewrite H.
  - intro H. rewrite normalize_unfold. now rewrite H.
  - intros raw' H. rewrite !normalize_unfold. now rewrite H.
  - rewrite !normalize_unfold, remove_char_app. simpl.
    now rewrite append_empty_r.
Qed.

Lemma normalize_strips_then_parses_witness :
  normalize d20230815 "3 hours ago" = ok d20230815 /\
  normalize d20230815 "Aug. 3, 2023" = ok (mk_datetime 2023 8 3 0 0 0 0) /\
  normalize d20230815 "Aug. 3, 2023" = normalize d20230815 "Aug 3, 2023." /\
  normalize d20230815 "August 3, 2023." = normalize d20230815 "August 3, 2023".
Proof.
  pose proof (normalize_strips_then_parses "3 hours ago" d20230815) as [H1 _].
  pose proof (normalize_strips_then_parses "Aug. 3, 2023" d20230815)
    as (_ & _ & H3 & _).
  pose proof (normalize_strips_then_parses "Aug 3, 2023." d20230815)
    as (_ & _ & _ & H4 & _).
  pose proof (normalize_strips_then_parses "August 3, 2023" d20230815)
    as (_ & _ & _ & _ & H5).
  split; [exact (H1 eq_refl) |].
  split; [exact (H3 eq_refl) |].
  split; [exact (H4 "Aug. 3, 2023" eq_refl) | exact H5].
Defined.

Lemma days_in_month_bound (y m : Z) : (28 <= days_in_month y m <= 31)%Z.
Proof.
  unfold days_in_month.
  destruct (m =? 2)%Z; [destruct (is_leap y); lia |].
  destruct (_ || _)%bool; lia.
Qed.

Lemma datetime_new_valid (y m d : Z) :
  (1 <= y <= 9999)%Z -> (1 <= m <= 12)%Z ->
  (1 <= d <= days_in_month y m)%Z ->
  datetime_new y m d = ok (mk_datetime y m d 0 0 0 0).
Proof.
  intros Hy Hm Hd. pose proof (days_in_month_bound y m) as Hb.
  unfold datetime_new, fits_c_int.
  replace ((-2147483648 <=? y)%Z && (y <=? 2147483647)%Z
           && ((-2147483648 <=? m)%Z && (m <=? 2147483647)%Z)
           && ((-2147483648 <=? d)%Z && (d <=? 2147483647)%Z)) with true
    by (symmetry; repeat (apply andb_true_intro; split); apply Z.leb_le; lia).
  replace ((1 <=? y)%Z && (y <=? 9999)%Z && (1 <=? m)%Z && (m <=? 12)%Z
           && (1 <=? d)%Z && (d <=? days_in_month y m)%Z) with true
    by (symmetry; repeat (apply andb_true_intro; split); apply Z.leb_le; lia).
  reflexivity.
Qed.

Lemma datetime_new_day (y m d : Z) (t : datetime) :
  datetime_new y m d = ok t ->
  t = mk_datetime y m d 0 0 0 0 /\
  (1 <= y <= 9999 /\ 1 <= m <= 12 /\ 1 <= d <= days_in_month y m)%Z.
Proof.
  unfold datetime_new.
  destruct (fits_c_int y && fits_c_int m && fits_c_int d); [| discriminate].
  destruct (_ && _)%bool eqn:E; [| discriminate].
  intro H. injection H as <-. split; [reflexivity |].
  repeat (apply andb_true_iff in E as [E ?]).
  repeat match goal with
         | H : (_ <=? _)%Z = true |- _ => apply Z.leb_le in H
         end.
  lia.
Qed.

(** C6: when [now.month - months_back] is a month number, the cutoff of
    line 148 is midnight of the first day of that month of [now.year]; with
    [months_back = 2] on 2023-08-15 it is 2023-06-01. *)
Theorem date_min_first_of_month (now : datetime) (months_back : Z) :
  (1 <= year now <= 9999)%Z ->
  (1 <= month now - months_back <= 12)%Z ->
  date_min now months_back
  = ok (mk_datetime (year now) (month now - months_back) 1 0 0 0 0).
Proof.
  intros Hy Hm. unfold date_min.
  pose proof (days_in_month_bound (year now) (month now - months_back)).
  apply datetime_new_valid; lia.
Qed.

Lemma date_min_first_of_month_witness :
  date_min d20230815 2 = ok (mk_datetime 2023 6 1 0 0 0 0).
Proof.
  apply (date_min_first_of_month d20230815 2); simpl; lia.
Defined.

(** ** The monad *)

Lemma bind_ok {A B} (m : M A) (k : A -> M B) (s s' : State) (a : A) :
  m s = (ok a, s') -> bind m k s = k a s'.
Proof. intro H. unfold bind. now rewrite H. Qed.

Lemma bind_throw {A B} (m : M A) (k : A -> M B) (s s' : State) (e : exn) :
  m s = (throw e, s') -> bind m k s = (throw e, s').
Proof. intro H. unfold bind. now rewrite H. Qed.

Lemma with_page_same (s : State) : with_page s (st_page s) = s.
Proof. now destruct s. Qed.

Lemma with_page_twice (s : State) (n m : nat) :
  with_page (with_page s n) m = with_page s m.
Proof. reflexivity. Qed.

Lemma skipn_cons_inv {A} (l : list A) (pos : nat) (x : A) (rest : list A) :
  skipn pos l = x :: rest ->
  nth_error l pos = Some x /\ skipn (S pos) l = rest.
Proof.
  revert l. induction pos as [| pos IH]; intros l H.
  - simpl in H. subst l. now split.
  - destruct l as [| y l]; [discriminate |]. simpl in H.
    destruct (IH l H) as [H1 H2]. split; [exact H1 | exact H2].
Qed.

Lemma nth_error_skipn_cons {A} (l : list A) (pos : nat) (x : A) :
  nth_error l pos = Some x -> skipn pos l = x :: skipn (S pos) l.
Proof.
  revert l. induction pos as [| pos IH]; intros l H.
  - destruct l; [discriminate |]. simpl in H. now injection H as ->.
  - destruct l as [| y l]; [discriminate |]. simpl in H.
    now rewrite (IH l H) at 1.
Qed.

(** ** The accumulator *)

Lemma append_rows_app (a : Acc) (r1 r2 : list Row) :
  append_rows a (r1 ++ r2) = append_rows (append_rows a r1) r2.
Proof. apply fold_left_app. Qed.

Lemma append_rows_fields (rows : list Row) (a : Acc) :
  append_rows a rows
  = mk_acc (title_ls a ++ map r_title rows) (date_ls a ++ map r_date rows)
           (description_ls a ++ map r_description rows)
           (picture_ls a ++ map r_picture rows).
Proof.
  revert a. induction rows as [| r rows IH]; intro a.
  - simpl. rewrite !app_nil_r. now destruct a.
  - change (append_rows a (r :: rows)) with (append_rows (append_row a r) rows).
    rewrite IH. simpl. now rewrite <- !app_assoc.
Qed.

Lemma pd_DataFrame_rows (rows : list Row) :
  pd_DataFrame (append_rows empty_acc rows) = ok (frame_of_rows rows).
Proof.
  rewrite append_rows_fields. unfold pd_DataFrame. simpl.
  rewrite !length_map, !Nat.eqb_refl. reflexivity.
Qed.

(** ** One entry, one page *)

Lemma datetime_lt_irrefl (d : datetime) : datetime_lt d d = false.
Proof.
  unfold datetime_lt. induction (datetime_key d) as [| x l IH];
    [reflexivity |].
  simpl. now rewrite Z.ltb_irrefl, Z.eqb_refl, IH.
Qed.

Lemma process_entry_kept (today cutoff : datetime) (li : Entry) (r : Row)
  (a : Acc) :
  entry_row today li = Some r ->
  datetime_lt (r_date r) cutoff = false ->
  process_entry today cutoff li a = ok (Continue (append_row a r)).
Proof.
  unfold entry_row, process_entry. intros Hrow Hlt.
  destruct (e_timestamp li) as [text |]; [| discriminate].
  destruct (e_title li) as [t |]; [| discriminate].
  destruct (e_description li) as [d |]; [| discriminate].
  destruct (e_image li) as [p |]; [| discriminate].
  simpl. destruct (normalize today text) as [e | date]; [discriminate |].
  injection Hrow as <-. simpl in *. now rewrite Hlt.
Qed.

Lemma process_entry_below (today cutoff : datetime) (li : Entry)
  (text : string) (date : datetime) (a : Acc) :
  e_timestamp li = Some text ->
  normalize today text = ok date ->
  datetime_lt date cutoff = true ->
  process_entry today cutoff li a = ok (Return a).
Proof.
  intros Ht Hn Hlt. unfold process_entry. rewrite Ht. simpl.
  rewrite Hn. simpl. now rewrite Hlt.
Qed.

Lemma process_entry_bad_date (today cutoff : datetime) (li : Entry)
  (text : string) (e : exn) (a : Acc) :
  e_timestamp li = Some text ->
  normalize today text = throw e ->
  process_entry today cutoff li a = throw e.
Proof.
  intros Ht Hn. unfold process_entry. rewrite Ht. simpl. now rewrite Hn.
Qed.

Lemma process_entries_kept (today cutoff : datetime) (pre : list Entry) :
  forall (rows : list Row) (rest : list Entry) (a : Acc),
    rows_of today cutoff pre = Some rows ->
    process_entries today cutoff (pre ++ rest) a
    = process_entries today cutoff rest (append_rows a rows).
Proof.
  induction pre as [| li pre IH]; intros rows rest a H.
  - simpl in H. now injection H as <-.
  - simpl in H.
    destruct (entry_row today li) as [r |] eqn:Er; [| discriminate].
    destruct (datetime_lt (r_date r) cutoff) eqn:El; [discriminate |].
    destruct (rows_of today cutoff pre) as [rows' |]; [| discriminate].
    injection H as <-. simpl.
    rewrite (process_entry_kept _ _ _ _ a Er El). simpl.
    now apply IH.
Qed.

Lemma process_entries_all (today cutoff : datetime) (lis : list Entry)
  (rows : list Row) (a : Acc) :
  rows_of today cutoff lis = Some rows ->
  process_entries today cutoff lis a = ok (Continue (append_rows a rows)).
Proof.
  intro H. rewrite <- (app_nil_r lis).
  now rewrite (process_entries_kept _ _ _ _ [] a H).
Qed.

(** ** The page loop *)

Section Loop.

Variable w : World.
Variables today cutoff : datetime.

Lemma wait_results_ok (s : State) (pg : Page) (li : Entry)
  (lis : list Entry) :
  nth_error (w_pages w) (st_page s) = Some pg ->
  p_results pg = li :: lis ->
  wait_results w s = (ok (li :: lis), s).
Proof.
  intros Hp Hr. unfold wait_results, bind, current_page.
  rewrite Hp. cbn. rewrite Hr. reflexivity.
Qed.

Lemma leave_page_ok (s : State) (pg pg' : Page) {A} (k : M A) :
  nth_error (w_pages w) (st_page s) = Some pg ->
  nth_error (w_pages w) (S (st_page s)) = Some pg' ->
  p_next_clickable pg = true ->
  p_next_present pg' = true ->
  (wait_next_clickable w ;;; click_next ;;; wait_next_present w ;;; k) s
  = k (with_page s (S (st_page s))).
Proof.
  intros Hp Hp' Hc Hn.
  unfold wait_next_clickable, wait_next_present, click_next, bind,
    current_page, modify, wait_until, ret.
  rewrite Hp. cbn. rewrite Hc. cbn. cbn in Hp'. rewrite Hp'. cbn.
  rewrite Hn. reflexivity.
Qed.

(** [k] pages read to the end take [k] iterations and leave the browser
    [k] pages further, the log untouched. *)
Lemma pages_loop_consumed (k : nat) :
  forall (n : nat) (a : Acc) (s : State) (rows : list Row),
    consumed today cutoff (skipn (st_page s) (w_pages w)) k = Some rows ->
    pages_loop w today cutoff (k + n) a s
    = pages_loop w today cutoff n (append_rows a rows)
                 (with_page s (st_page s + k)).
Proof.
  induction k as [| k IH]; intros n a s rows H.
  - simpl in H. injection H as <-. simpl.
    now rewrite Nat.add_0_r, with_page_same.
  - simpl in H.
    destruct (skipn (st_page s) (w_pages w)) as [| p [| p' rest]] eqn:Es;
      try discriminate.
    destruct (p_results p) as [| li lis] eqn:Er; [discriminate |].
    destruct (rows_of today cutoff (li :: lis)) as [rows1 |] eqn:E1;
      [| discriminate].
    destruct (p_next_clickable p && p_next_present p') eqn:Eb;
      [| discriminate].
    apply andb_true_iff in Eb as [Hc Hn].
    destruct (consumed today cutoff (p' :: rest) k) as [rows2 |] eqn:E2;
      [| discriminate].
    injection H as <-.
    destruct (skipn_cons_inv _ _ _ _ Es) as [Hp Hs].
    destruct (skipn_cons_inv _ _ _ _ Hs) as [Hp' _].
    change (S k + n) with (S (k + n)).
    cbn [pages_loop].
    rewrite (bind_ok _ _ _ _ _ (wait_results_ok s p li lis Hp Er)).
    unfold lift at 1.
    rewrite (bind_ok _ _ s s (Continue (append_rows a rows1)));
      [| now rewrite (process_entries_all _ _ _ _ a E1)].
    rewrite (leave_page_ok s p p' _ Hp Hp' Hc Hn).
    rewrite (IH n (append_rows a rows1) (with_page s (S (st_page s))) rows2).
    + rewrite append_rows_app, with_page_twice. simpl.
      now rewrite Nat.add_succ_r.
    + cbn [st_page with_page]. now rewrite Hs.
Qed.

(** The iteration that meets, after the kept entries [pre], an entry on
    which [process_entry] takes the [return] or raises. *)
Lemma pages_loop_stop (n : nat) (a : Acc) (s : State) (pg : Page)
  (pre post : list Entry) (li : Entry) (rows : list Row) :
  nth_error (w_pages w) (st_page s) = Some pg ->
  p_results pg = pre ++ li :: post ->
  rows_of today cutoff pre = Some rows ->
  (process_entry today cutoff li (append_rows a rows)
     = ok (Return (append_rows a rows)) ->
   pages_loop w today cutoff (S n) a s = (ok (append_rows a rows), s)) /\
  (forall e, process_entry today cutoff li (append_rows a rows) = throw e ->
   pages_loop w today cutoff (S n) a s = (throw e, s)).
Proof.
  intros Hp Hr Hrows.
  assert (Hw : exists x l, p_results pg = x :: l).
  { rewrite Hr. destruct pre; simpl; eauto. }
  destruct Hw as (x & l & Hxl).
  pose proof (wait_results_ok s pg x l Hp Hxl) as Hwait.
  rewrite <- Hxl, Hr in Hwait.
  split.
  - intro He. cbn [pages_loop].
    rewrite (bind_ok _ _ _ _ _ Hwait). unfold lift at 1.
    rewrite (bind_ok _ _ s s (Return (append_rows a rows))); [reflexivity |].
    rewrite (process_entries_kept _ _ _ _ _ a Hrows). simpl.
    now rewrite He.
  - intros e He. cbn [pages_loop].
    rewrite (bind_ok _ _ _ _ _ Hwait). unfold lift at 1.
    apply bind_throw.
    rewrite (process_entries_kept _ _ _ _ _ a Hrows). simpl.
    now rewrite He.
Qed.

End Loop.

(** ** What a successful extraction has read *)

Lemma process_entry_shape (today cutoff : datetime) (li : Entry) (a : Acc)
  (r : flow) :
  process_entry today cutoff li a = ok r ->
  r = Return a \/
  exists row, row_of_entry today li row /\ not_below cutoff row /\
              r = Continue (append_row a row).
Proof.
  unfold process_entry, row_of_entry, not_below, entry_row.
  destruct (e_timestamp li) as [text |]; [| discriminate]. simpl.
  destruct (normalize today text) as [e | date]; [discriminate |]. simpl.
  destruct (datetime_lt date cutoff) eqn:El.
  - intro H. injection H as <-. now left.
  - destruct (e_title li) as [t |]; [| discriminate]. simpl.
    destruct (e_description li) as [d |]; [| discriminate]. simpl.
    destruct (e_image li) as [p |]; [| discriminate]. simpl.
    intro H. injection H as <-. right.
    exists (mk_row date t d p). repeat split. exact El.
Qed.

Lemma process_entries_shape (today cutoff : datetime) (lis : list Entry) :
  forall (a : Acc) (r : flow),
    process_entries today cutoff lis a = ok r ->
    exists rows,
      flow_acc r = append_rows a rows /\
      Forall (not_below cutoff) rows /\
      Forall2 (row_of_entry today) (firstn (List.length rows) lis) rows /\
      (forall a', r = Continue a' -> List.length rows = List.length lis).
Proof.
  induction lis as [| li lis IH]; intros a r H.
  - simpl in H. injection H as <-. exists []. repeat split; auto.
  - simpl in H.
    destruct (process_entry today cutoff li a) as [e | f] eqn:E;
      [discriminate |].
    simpl in H.
    destruct (process_entry_shape _ _ _ _ _ E) as [-> | (row & Hr & Hb & ->)].
    + injection H as <-. exists []. repeat split; auto. discriminate.
    + destruct (IH _ _ H) as (rows & Ha & Hf & H2 & Hl).
      exists (row :: rows). repeat split.
      * exact Ha.
      * now constructor.
      * simpl. now constructor.
      * intros a' Ea. simpl. f_equal. now apply (Hl a').
Qed.

Section Shape.

Variable w : World.
Variables today cutoff : datetime.

(** One iteration that ends well either took the [return] on the page
    shown, or read the page to the end and went on from the next one. *)
Lemma pages_loop_S_ok (n : nat) (a a' : Acc) (s s' : State) :
  pages_loop w today cutoff (S n) a s = (ok a', s') ->
  exists pg,
    nth_error (w_pages w) (st_page s) = Some pg /\
    ((process_entries today cutoff (p_results pg) a = ok (Return a') /\
      s' = s) \/
     (exists a1,
        process_entries today cutoff (p_results pg) a = ok (Continue a1) /\
        pages_loop w today cutoff n a1 (with_page s (S (st_page s)))
        = (ok a', s'))).
Proof.
  cbn [pages_loop].
  unfold wait_results, wait_next_clickable, wait_next_present, click_next,
    bind, current_page, lift, modify, wait_until, ret, raise, ok, throw.
  destruct (nth_error (w_pages w) (st_page s)) as [pg |] eqn:Ep;
    cbn [ok throw]; [| discriminate].
  destruct (p_results pg) as [| li lis] eqn:Er; cbn [ok throw];
    [discriminate |].
  destruct (process_entries today cutoff (li :: lis) a) as [e | [a1 | a1]]
    eqn:Epe; cbn [ok throw]; [discriminate | |].
  - rewrite Ep.
    destruct (p_next_clickable pg); cbn [ok throw st_page with_page];
      [| discriminate].
    destruct (nth_error (w_pages w) (S (st_page s))) as [pg' |];
      cbn [ok throw]; [| discriminate].
    destruct (p_next_present pg'); cbn [ok throw]; [| discriminate].
    intro H. exists pg. split; [reflexivity |]. right. exists a1.
    rewrite Er. now split.
  - intro H. injection H as <- <-. exists pg. split; [reflexivity |].
    left. rewrite Er. now split.
Qed.

(** Whatever the outcome, the loop only moves the browser, by at most one
    page for each iteration. *)
Lemma pages_loop_state (n : nat) :
  forall (a : Acc) (s : State),
  exists k, k <= n /\
    snd (pages_loop w today cutoff n a s) = with_page s (st_page s + k).
Proof.
  induction n as [| n IH]; intros a s.
  - exists 0. split; [lia |]. simpl. now rewrite Nat.add_0_r, with_page_same.
  - cbn [pages_loop].
    unfold wait_results, wait_next_clickable, wait_next_present, click_next,
      bind, current_page, lift, modify, wait_until, ret, raise, ok, throw.
    assert (Hstay : exists k, k <= S n /\ s = with_page s (st_page s + k)).
    { exists 0. split; [lia |]. now rewrite Nat.add_0_r, with_page_same. }
    assert (Hmove : exists k, k <= S n /\
              with_page s (S (st_page s)) = with_page s (st_page s + k)).
    { exists 1. split; [lia |]. now rewrite Nat.add_1_r. }
    destruct (nth_error (w_pages w) (st_page s)) as [pg |] eqn:Ep;
      cbn [snd]; [| exact Hstay].
    destruct (p_results pg) as [| li lis]; cbn [snd]; [exact Hstay |].
    destruct (process_entries today cutoff (li :: lis) a) as [e | [a1 | a1]];
      cbn [snd]; [exact Hstay | | exact Hstay].
    rewrite Ep.
    destruct (p_next_clickable pg); cbn [snd st_page with_page];
      [| exact Hstay].
    destruct (nth_error (w_pages w) (S (st_page s))) as [pg' |];
      cbn [snd]; [| exact Hmove].
    destruct (p_next_present pg'); cbn [snd]; [| exact Hmove].
    destruct (IH a1 (with_page s (S (st_page s)))) as (k & Hk & Hs).
    exists (S k). split; [lia |].
    rewrite Hs. cbn [st_page with_page]. now rewrite Nat.add_succ_r.
Qed.

Lemma entries_from_S (pos n : nat) (pg : Page) :
  nth_error (w_pages w) pos = Some pg ->
  entries_from (w_pages w) pos (S n)
  = p_results pg ++ entries_from (w_pages w) (S pos) n.
Proof.
  intro H. unfold entries_from.
  rewrite (nth_error_skipn_cons _ _ _ H). reflexivity.
Qed.

Lemma Forall2_firstn_app {A B} (P : A -> B -> Prop) (l rest : list A)
  (rows : list B) :
  Forall2 P (firstn (List.length rows) l) rows ->
  Forall2 P (firstn (List.length rows) (l ++ rest)) rows.
Proof.
  intro H. pose proof (Forall2_length H) as Hl.
  rewrite length_firstn in Hl.
  rewrite firstn_app.
  replace (List.length rows - List.length l) with 0 by lia.
  simpl. now rewrite app_nil_r.
Qed.

(** The rows of a successful loop are the rows of the leading entries of
    the [n] pages from the one shown, none of them below the cutoff. *)
Lemma pages_loop_shape (n : nat) :
  forall (a a' : Acc) (s s' : State),
    pages_loop w today cutoff n a s = (ok a', s') ->
    exists rows,
      a' = append_rows a rows /\
      Forall (not_below cutoff) rows /\
      Forall2 (row_of_entry today)
        (firstn (List.length rows) (entries_from (w_pages w) (st_page s) n))
        rows.
Proof.
  induction n as [| n IH]; intros a a' s s' H.
  - simpl in H. injection H as <- <-. exists []. repeat split; auto.
  - destruct (pages_loop_S_ok _ _ _ _ _ H)
      as (pg & Hp & [[He ->] | (a1 & He & Hl)]).
    + destruct (process_entries_shape _ _ _ _ _ He)
        as (rows & Ha & Hf & H2 & _).
      exists rows. simpl in Ha. repeat split; auto.
      rewrite (entries_from_S _ _ _ Hp). now apply Forall2_firstn_app.
    + destruct (process_entries_shape _ _ _ _ _ He)
        as (rows1 & Ha & Hf1 & H21 & Hlen).
      specialize (Hlen a1 eq_refl). simpl in Ha. subst a1.
      destruct (IH _ _ _ _ Hl) as (rows2 & -> & Hf2 & H22).
      exists (rows1 ++ rows2). repeat split.
      * now rewrite append_rows_app.
      * apply Forall_app. now split.
      * rewrite (entries_from_S _ _ _ Hp), length_app, Hlen.
        rewrite firstn_app_2.
        apply Forall2_app; [| exact H22].
        rewrite Hlen, firstn_all in H21. exact H21.
Qed.

End Shape.

(** ** [_extract_data] as a whole *)

Lemma extract_data_cases (w : World) (months_back : Z) (s : State) :
  _extract_data w months_back s =
  match date_min (w_today w) months_back with
  | inl e => (ok None, log_failure s e)
  | inr cutoff =>
      match pages_loop w (w_today w) cutoff 9 empty_acc s with
      | (inl e, s') => (ok None, log_failure s' e)
      | (inr a, s') =>
          match pd_DataFrame a with
          | inl e => (ok None, log_failure s' e)
          | inr df => (ok (Some df), s')
          end
      end
  end.
Proof.
  unfold _extract_data, extract_body, try_except, bind, lift, logger_error,
    modify, ret, max_pages, log_failure.
  destruct (date_min (w_today w) months_back) as [e | cutoff];
    [reflexivity |].
  destruct (pages_loop w (w_today w) cutoff 9 empty_acc s) as [[e | a] s'];
    [reflexivity |].
  destruct (pd_DataFrame a) as [e | df]; reflexivity.
Qed.

Lemma extract_data_inv (w : World) (months_back : Z) (s s' : State)
  (df : DataFrame) :
  _extract_data w months_back s = (ok (Some df), s') ->
  exists cutoff rows,
    date_min (w_today w) months_back = ok cutoff /\
    pages_loop w (w_today w) cutoff 9 empty_acc s
      = (ok (append_rows empty_acc rows), s') /\
    df = frame_of_rows rows /\
    Forall (not_below cutoff) rows /\
    Forall2 (row_of_entry (w_today w))
      (firstn (List.length rows) (entries_from (w_pages w) (st_page s) 9))
      rows.
Proof.
  rewrite extract_data_cases.
  destruct (date_min (w_today w) months_back) as [e | cutoff];
    [discriminate |].
  destruct (pages_loop w (w_today w) cutoff 9 empty_acc s) as [[e | a] s1]
    eqn:El; [discriminate |].
  destruct (pages_loop_shape _ _ _ _ _ _ _ _ El) as (rows & -> & Hf & H2).
  rewrite pd_DataFrame_rows. intro H. injection H as <- <-.
  exists cutoff, rows. repeat split; auto.
Qed.

Lemma rows_of_entries (today cutoff : datetime) (lis : list Entry) :
  forall rows, rows_of today cutoff lis = Some rows ->
    Forall2 (row_of_entry today) lis rows /\ Forall (not_below cutoff) rows.
Proof.
  induction lis as [| li lis IH]; intros rows H; simpl in H.
  - injection H as <-. split; constructor.
  - destruct (entry_row today li) as [r |] eqn:Er; [| discriminate].
    destruct (datetime_lt (r_date r) cutoff) eqn:El; [discriminate |].
    destruct (rows_of today cutoff lis) as [rows' |]; [| discriminate].
    injection H as <-. destruct (IH rows' eq_refl) as [H2 Hf].
    split; constructor; auto.
Qed.

Lemma consumed_entries (today cutoff : datetime) (k : nat) :
  forall pages rows, consumed today cutoff pages k = Some rows ->
    Forall2 (row_of_entry today)
            (List.concat (map p_results (firstn k pages))) rows.
Proof.
  induction k as [| k IH]; intros pages rows H; simpl in H.
  - injection H as <-. constructor.
  - destruct pages as [| p [| p' rest]]; try discriminate.
    destruct (p_results p) as [| li lis] eqn:Er; [discriminate |].
    destruct (rows_of today cutoff (li :: lis)) as [rows1 |] eqn:E1;
      [| discriminate].
    destruct (p_next_clickable p && p_next_present p'); [| discriminate].
    destruct (consumed today cutoff (p' :: rest) k) as [rows2 |] eqn:E2;
      [| discriminate].
    injection H as <-.
    change (firstn (S k) (p :: p' :: rest))
      with (p :: firstn k (p' :: rest)).
    cbn [map List.concat]. rewrite Er.
    apply Forall2_app; [apply (rows_of_entries _ _ _ _ E1) | now apply IH].
Qed.

(** After [k < 9] pages read to the end, what the run does on the entry
    that follows the kept entries [pre] of the page then shown. *)
Lemma extract_data_stop (w : World) (months_back : Z) (s : State)
  (cutoff : datetime) (k : nat) (rows rows' : list Row) (pg : Page)
  (pre post : list Entry) (li : Entry) :
  date_min (w_today w) months_back = ok cutoff ->
  k < 9 ->
  consumed (w_today w) cutoff (skipn (st_page s) (w_pages w)) k = Some rows ->
  nth_error (w_pages w) (st_page s + k) = Some pg ->
  p_results pg = pre ++ li :: post ->
  rows_of (w_today w) cutoff pre = Some rows' ->
  let a := append_rows empty_acc (rows ++ rows') in
  let s' := with_page s (st_page s + k) in
  (process_entry (w_today w) cutoff li a = ok (Return a) ->
   _extract_data w months_back s
   = (ok (Some (frame_of_rows (rows ++ rows'))), s')) /\
  (forall e, process_entry (w_today w) cutoff li a = throw e ->
   _extract_data w months_back s = (ok None, log_failure s' e)).
Proof.
  intros Hc Hk Hcons Hp Hr Hrows a s'. subst a s'.
  rewrite extract_data_cases. unfold ok in Hc. rewrite Hc. cbv beta iota.
  replace 9 with (k + S (8 - k)) by lia.
  rewrite (pages_loop_consumed _ _ _ _ _ _ _ _ Hcons).
  destruct (pages_loop_stop w (w_today w) cutoff (8 - k)
              (append_rows empty_acc rows) (with_page s (st_page s + k))
              pg pre post li rows' Hp Hr Hrows) as [Hret Hthrow].
  rewrite <- append_rows_app in Hret, Hthrow.
  split.
  - intro H. rewrite (Hret H). cbn [ok throw].
    now rewrite pd_DataFrame_rows.
  - intros e H. now rewrite (Hthrow e H).
Qed.

(** C1: a frame that [_extract_data] returns has no date below the cutoff;
    when, after pages read to the end, the page shown has kept entries
    [pre] and then an entry whose date is below the cutoff, the run returns
    the rows read so far and those of [pre], without that entry or the ones
    after it, and the browser stays on that page; an entry dated the cutoff
    itself is appended. *)
Theorem extract_stops_below_cutoff :
  (forall w months_back s s' df,
     _extract_data w months_back s = (ok (Some df), s') ->
     exists cutoff,
       date_min (w_today w) months_back = ok cutoff /\
       Forall (fun d => datetime_lt d cutoff = false) (Date df)) /\
  (forall w months_back s cutoff k rows rows' pg pre post li text date,
     date_min (w_today w) months_back = ok cutoff ->
     k < 9 ->
     consumed (w_today w) cutoff (skipn (st_page s) (w_pages w)) k
       = Some rows ->
     nth_error (w_pages w) (st_page s + k) = Some pg ->
     p_results pg = pre ++ li :: post ->
     rows_of (w_today w) cutoff pre = Some rows' ->
     e_timestamp li = Some text ->
     normalize (w_today w) text = ok date ->
     datetime_lt date cutoff = true ->
     _extract_data w months_back s
     = (ok (Some (frame_of_rows (rows ++ rows'))),
        with_page s (st_page s + k))) /\
  (forall today cutoff li text t d p a,
     e_timestamp li = Some text ->
     e_title li = Some t ->
     e_description li = Some d ->
     e_image li = Some p ->
     normalize today text = ok cutoff ->
     process_entry today cutoff li a
     = ok (Continue (append_row a (mk_row cutoff t d p)))).
Proof.
  split; [| split].
  - intros w months_back s s' df H.
    destruct (extract_data_inv _ _ _ _ _ H) as (cutoff & rows & Hc & _ & -> & Hf & _).
    exists cutoff. split; [exact Hc |].
    simpl. apply Forall_map. exact Hf.
  - intros w months_back s cutoff k rows rows' pg pre post li text date
      Hc Hk Hcons Hp Hr Hrows Ht Hn Hlt.
    apply (extract_data_stop w months_back s cutoff k rows rows' pg pre post li
             Hc Hk Hcons Hp Hr Hrows).
    now apply (process_entry_below _ _ _ text date).
  - intros today cutoff li text t d p a Ht Htt Hd Hp Hn.
    apply process_entry_kept.
    + unfold entry_row. now rewrite Ht, Htt, Hd, Hp, Hn.
    + apply datetime_lt_irrefl.
Qed.

Lemma extract_stops_below_cutoff_witness :
  _extract_data Sample.two_pages 2 init_state
  = (ok (Some (frame_of_rows
                 [Sample.row_recent; Sample.row_august; Sample.row_on_cutoff])),
     with_page init_state 1).
Proof.
  apply (proj1 (proj2 extract_stops_below_cutoff)
           Sample.two_pages 2%Z init_state (mk_datetime 2023 6 1 0 0 0 0) 1
           [Sample.row_recent; Sample.row_august] [Sample.row_on_cutoff]
           (mk_page [Sample.on_cutoff; Sample.old; Sample.august] true true)
           [Sample.on_cutoff] [Sample.august] Sample.old
           "Jan. 1, 2023" (mk_datetime 2023 1 1 0 0 0 0));
    solve [reflexivity | simpl; lia].
Defined.

(** C2: whatever happens the browser is moved by at most nine pages; the
    rows of a frame returned are those of the leading entries of the nine
    pages from the one shown; and when these nine pages are all read to the
    end with no entry below the cutoff, the run returns the rows of all
    their entries and logs nothing. *)
Theorem extract_reads_at_most_nine_pages :
  (forall w months_back s,
     st_page (snd (_extract_data w months_back s)) <= st_page s + 9) /\
  (forall w months_back s s' df,
     _extract_data w months_back s = (ok (Some df), s') ->
     exists rows,
       df = frame_of_rows rows /\
       Forall2 (row_of_entry (w_today w))
         (firstn (List.length rows) (entries_from (w_pages w) (st_page s) 9))
         rows) /\
  (forall w months_back s cutoff rows,
     date_min (w_today w) months_back = ok cutoff ->
     consumed (w_today w) cutoff (skipn (st_page s) (w_pages w)) 9
       = Some rows ->
     _extract_data w months_back s
       = (ok (Some (frame_of_rows rows)), with_page s (st_page s + 9)) /\
     Forall2 (row_of_entry (w_today w))
       (entries_from (w_pages w) (st_page s) 9) rows).
Proof.
  split; [| split].
  - intros w months_back s. rewrite extract_data_cases.
    destruct (date_min (w_today w) months_back) as [e | cutoff];
      [simpl; lia |].
    destruct (pages_loop_state w (w_today w) cutoff 9 empty_acc s)
      as (k & Hk & Hs).
    destruct (pages_loop w (w_today w) cutoff 9 empty_acc s) as [[e | a] s1].
    + simpl in Hs |- *. subst s1. simpl. lia.
    + simpl in Hs. subst s1.
      destruct (pd_DataFrame a); simpl; lia.
  - intros w months_back s s' df H.
    destruct (extract_data_inv _ _ _ _ _ H)
      as (cutoff & rows & _ & _ & -> & _ & H2).
    now exists rows.
  - intros w months_back s cutoff rows Hc Hcons. split.
    + rewrite extract_data_cases. unfold ok in Hc. rewrite Hc.
      cbv beta iota.
      pose proof (pages_loop_consumed w (w_today w) cutoff 9 0 empty_acc s
                    rows Hcons) as Hl.
      change (9 + 0) with 9 in Hl. rewrite Hl. cbn [pages_loop ret ok].
      now rewrite pd_DataFrame_rows.
    + apply (consumed_entries _ _ _ _ _ Hcons).
Qed.

Lemma extract_reads_at_most_nine_pages_witness :
  _extract_data Sample.ten_pages 0 init_state
  = (ok (Some (frame_of_rows
                 (List.concat
                    (repeat [Sample.row_recent; Sample.row_august] 9)))),
     with_page init_state 9).
Proof.
  apply (proj2 (proj2 extract_reads_at_most_nine_pages)
           Sample.ten_pages 0%Z init_state (mk_datetime 2023 8 1 0 0 0 0)
           (List.concat (repeat [Sample.row_recent; Sample.row_august] 9)));
    reflexivity.
Defined.

(** C10: the four lists that the loop returns have one length, and a frame
    returned by [_extract_data] is made of whole rows: no entry is in it
    with only some of its fields. *)
Theorem extract_frame_well_formed :
  (forall w today cutoff n s s' a,
     pages_loop w today cutoff n empty_acc s = (ok a, s') ->
     List.length (date_ls a) = List.length (title_ls a) /\
     List.length (title_ls a) = List.length (description_ls a) /\
     List.length (description_ls a) = List.length (picture_ls a)) /\
  (forall w months_back s s' df,
     _extract_data w months_back s = (ok (Some df), s') ->
     (exists rows, df = frame_of_rows rows) /\ equal_lengths df).
Proof.
  split.
  - intros w today cutoff n s s' a H.
    destruct (pages_loop_shape _ _ _ _ _ _ _ _ H) as (rows & -> & _).
    rewrite append_rows_fields. simpl. rewrite !length_map. auto.
  - intros w months_back s s' df H.
    destruct (extract_data_inv _ _ _ _ _ H) as (cutoff & rows & _ & _ & -> & _).
    split; [now exists rows |].
    unfold equal_lengths. simpl. rewrite !length_map. auto.
Qed.

Lemma extract_frame_well_formed_witness :
  equal_lengths
    (frame_of_rows
       [Sample.row_recent; Sample.row_august; Sample.row_on_cutoff]).
Proof.
  apply (proj2 extract_frame_well_formed Sample.two_pages 2%Z init_state
           (with_page init_state 1)).
  reflexivity.
Defined.

(** ** The stages around the extraction *)

Lemma same_place_refl (s : State) : same_place s s.
Proof. now split. Qed.

Lemma same_place_trans (s s1 s2 : State) :
  same_place s s1 -> same_place s1 s2 -> same_place s s2.
Proof. intros [H1 H2] [H3 H4]. split; congruence. Qed.

Lemma search_total (w : World) (phrase : string) (s : State) :
  exists s1, _search w phrase s = (ok tt, s1) /\ same_place s s1.
Proof.
  unfold _search, search_body, try_except, bind, wait_until, set_query,
    logger_error, modify, ret, raise.
  destruct (w_search_button w), (w_search_box w), (w_sort_select w);
    eexists; (split; [reflexivity | now split]).
Qed.

Lemma select_categories_total (w : World) (categories : list string) :
  forall s, exists s1,
    select_categories w categories s = (ok tt, s1) /\ same_place s s1.
Proof.
  induction categories as [| c rest IH]; intro s.
  - exists s. split; [reflexivity | apply same_place_refl].
  - cbn [select_categories]. unfold bind.
    destruct (existsb (String.eqb c) (w_labels w)).
    + destruct (IH (snd (click_checkbox c s))) as (s1 & H1 & Hp).
      exists s1. split; [exact H1 |].
      eapply same_place_trans; [| exact Hp]. now split.
    + destruct (IH (snd (logger_warning c (w_labels w) s))) as (s1 & H1 & Hp).
      exists s1. split; [exact H1 |].
      eapply same_place_trans; [| exact Hp]. now split.
Qed.

Lemma filter_total (w : World) (categories : list string) (s : State) :
  exists s1, _filter_categories w categories s = (ok tt, s1) /\
             same_place s s1.
Proof.
  destruct categories as [| c rest].
  - exists s. split; [reflexivity | apply same_place_refl].
  - unfold _filter_categories, filter_body, try_except, bind, wait_until,
      logger_error, modify, ret, raise.
    destruct (w_filter_button w);
      [| eexists; split; [reflexivity | now split]].
    destruct (w_see_all_button w);
      [| eexists; split; [reflexivity | now split]].
    destruct (select_categories_total w (c :: rest) s) as (s1 & H1 & Hp).
    rewrite H1.
    destruct (w_apply_button w); eexists; (split; [reflexivity |]).
    + exact Hp.
    + eapply same_place_trans; [exact Hp | now split].
Qed.

(** A run whose extraction comes back with [None]: line 220 raises the
    TypeError, [scrape] logs it and quits; nothing is enriched or saved. *)
Lemma scrape_without_frame (w : World) (phrase : string)
  (categories : list string) (months_back : Z) (folder : string)
  (s s1 s2 s3 : State) :
  _search w phrase s = (ok tt, s1) ->
  _filter_categories w categories s1 = (ok tt, s2) ->
  _extract_data w months_back s2 = (ok None, s3) ->
  scrape w phrase categories months_back folder s
  = (ok tt, with_quit (logged s3 scrape_msg TypeError)).
Proof.
  intros H1 H2 H3.
  unfold scrape, try_finally, try_except, scrape_body.
  rewrite (bind_ok _ _ _ _ _ H1), (bind_ok _ _ _ _ _ H2),
    (bind_ok _ _ _ _ _ H3).
  reflexivity.
Qed.

(** C5: when, after pages read to the end, the page shown has kept entries
    and then an entry whose text, stripped of its periods, has no "ago" and
    is refused by both formats, the ValueError leaves both loops: the
    extraction logs it and returns no frame, the browser stays on that page,
    and the run of [scrape] ends with the TypeError of line 220 logged and
    no file written. *)
Theorem bad_date_aborts_run
  (w : World) (months_back : Z) (s : State) (cutoff : datetime) (k : nat)
  (rows rows' : list Row) (pg : Page) (pre post : list Entry) (li : Entry)
  (text : string) :
  date_min (w_today w) months_back = ok cutoff ->
  k < 9 ->
  consumed (w_today w) cutoff (skipn (st_page s) (w_pages w)) k = Some rows ->
  nth_error (w_pages w) (st_page s + k) = Some pg ->
  p_results pg = pre ++ li :: post ->
  rows_of (w_today w) cutoff pre = Some rows' ->
  e_timestamp li = Some text ->
  Text.contains "ago" (Text.remove_char "." text) = false ->
  Strptime.strptime (Text.remove_char "." text) Strptime.fmt_long
    = throw ValueError ->
  Strptime.strptime (Text.remove_char "." text) Strptime.fmt_abbr
    = throw ValueError ->
  _extract_data w months_back s
    = (ok None, log_failure (with_page s (st_page s + k)) ValueError) /\
  (forall phrase categories folder,
   exists s',
     scrape w phrase categories months_back folder s = (ok tt, s') /\
     st_page s' = st_page s + k /\
     st_files s' = st_files s /\
     In (LogError extract_msg ValueError) (st_log s') /\
     In (LogError scrape_msg TypeError) (st_log s')).
Proof.
  intros Hc Hk Hcons Hp Hr Hrows Ht Hago Hlong Habbr.
  assert (Hn : normalize (w_today w) text = throw ValueError).
  { rewrite normalize_unfold, Hago. unfold parse_long_then_abbr.
    now rewrite Hlong. }
  assert (Hex : forall s0, st_page s0 = st_page s ->
            _extract_data w months_back s0
            = (ok None, log_failure (with_page s0 (st_page s0 + k)) ValueError)).
  { intros s0 H0.
    apply (extract_data_stop w months_back s0 cutoff k rows rows' pg pre post
             li Hc Hk); try rewrite H0; auto.
    now apply (process_entry_bad_date _ _ _ text). }
  split; [now apply Hex |].
  intros phrase categories folder.
  destruct (search_total w phrase s) as (s1 & H1 & [Hp1 Hf1]).
  destruct (filter_total w categories s1) as (s2 & H2 & [Hp2 Hf2]).
  assert (H0 : st_page s2 = st_page s) by congruence.
  eexists. split.
  - exact (scrape_without_frame _ _ _ _ _ _ _ _ _ H1 H2 (Hex s2 H0)).
  - simpl. repeat split.
    + now rewrite H0.
    + congruence.
    + apply in_or_app. left. apply in_or_app. right. now left.
    + apply in_or_app. right. now left.
Qed.

Lemma bad_date_aborts_run_witness :
  _extract_data Sample.unparsable 2 init_state
  = (ok None, log_failure (with_page init_state 1) ValueError).
Proof.
  apply (bad_date_aborts_run Sample.unparsable 2%Z init_state
           (mk_datetime 2023 6 1 0 0 0 0) 1
           [Sample.row_recent; Sample.row_august] [Sample.row_on_cutoff]
           (mk_page [Sample.on_cutoff; Sample.bad_date; Sample.august]
                    true true)
           [Sample.on_cutoff] [Sample.august] Sample.bad_date
           "Sept. 3, 2023");
    solve [reflexivity | simpl; lia].
Defined.

(** A page read to the end whose next-page control does not become
    clickable: the TimeoutException of line 188 reaches the handler of line
    196, and the rows read so far are dropped with the four lists. *)
Lemma next_page_timeout_discards (w : World) (months_back : Z) (s : State)
  (cutoff : datetime) (k : nat) (rows rows' : list Row) (pg : Page)
  (li : Entry) (lis : list Entry) :
  date_min (w_today w) months_back = ok cutoff ->
  k < 9 ->
  consumed (w_today w) cutoff (skipn (st_page s) (w_pages w)) k = Some rows ->
  nth_error (w_pages w) (st_page s + k) = Some pg ->
  p_results pg = li :: lis ->
  rows_of (w_today w) cutoff (li :: lis) = Some rows' ->
  p_next_clickable pg = false ->
  _extract_data w months_back s
  = (ok None, log_failure (with_page s (st_page s + k)) TimeoutException).
Proof.
  intros Hc Hk Hcons Hp Hr Hrows Hnc.
  rewrite extract_data_cases. unfold ok in Hc. rewrite Hc. cbv beta iota.
  replace 9 with (k + S (8 - k)) by lia.
  rewrite (pages_loop_consumed _ _ _ _ _ _ _ _ Hcons).
  cbn [pages_loop].
  rewrite (bind_ok _ _ _ _ _
             (wait_results_ok w (with_page s (st_page s + k)) pg li lis Hp Hr)).
  unfold lift at 1.
  rewrite (bind_ok _ _ (with_page s (st_page s + k))
             (with_page s (st_page s + k))
             (Continue (append_rows (append_rows empty_acc rows) rows')));
    [| now rewrite (process_entries_all _ _ _ _ _ Hrows)].
  unfold wait_next_clickable at 1, bind, current_page, wait_until, raise.
  cbn [st_page with_page] in Hp |- *. rewrite Hp. cbn [ok throw].
  rewrite Hnc. reflexivity.
Qed.

(** C3, the run that shows the defect: the site has one page of results,
    both entries are read, the next-page control never becomes clickable.
    [_extract_data] returns [None] instead of the two rows, line 220 raises
    on it, and no file is written. *)
Theorem last_page_timeout_loses_rows :
  rows_of Sample.today (mk_datetime 2023 6 1 0 0 0 0)
          [Sample.recent; Sample.august]
    = Some [Sample.row_recent; Sample.row_august] /\
  _extract_data Sample.last_page 2 init_state
    = (ok None, log_failure init_state TimeoutException) /\
  _add_columns Sample.last_page None "argentina" = throw TypeError /\
  (let s' := snd (scrape Sample.last_page "argentina" [] 2 "Output" init_state)
   in st_files s' = [] /\
      st_log s' = [LogError extract_msg TimeoutException;
                   LogError scrape_msg TypeError]).
Proof.
  split; [reflexivity |].
  split.
  - exact (next_page_timeout_discards Sample.last_page 2%Z init_state
             (mk_datetime 2023 6 1 0 0 0 0) 0 []
             [Sample.row_recent; Sample.row_august]
             (mk_page [Sample.recent; Sample.august] true false)
             Sample.recent [Sample.august]
             eq_refl (Nat.lt_0_succ 8) eq_refl eq_refl eq_refl eq_refl eq_refl).
  - split; [reflexivity |]. vm_compute. split; reflexivity.
Qed.

(** ** [scrape] *)

Lemma try_except_throw {A} (m : M A) (h : exn -> M A) (s s1 : State)
  (e : exn) :
  m s = (throw e, s1) -> try_except m h s = h e s1.
Proof. intro H. unfold try_except. now rewrite H. Qed.

(** C9: [scrape] returns to its caller without an exception and with the
    driver quit, whatever the site, the clock, the disk and the arguments
    are; and a failure of the search, of the filter, of the extraction, of
    the enrichment or of the saving each ends as a line of the log. *)
Theorem scrape_never_raises :
  (forall w phrase categories months_back folder s,
     fst (scrape w phrase categories months_back folder s) = ok tt /\
     st_quit (snd (scrape w phrase categories months_back folder s)) = true) /\
  (forall w phrase s s1 e,
     search_body w phrase s = (throw e, s1) ->
     _search w phrase s = (ok tt, logged s1 search_msg e)) /\
  (forall w c rest s s1 e,
     filter_body w (c :: rest) s = (throw e, s1) ->
     _filter_categories w (c :: rest) s = (ok tt, logged s1 filter_msg e)) /\
  (forall w months_back s s1 e,
     extract_body w months_back s = (throw e, s1) ->
     _extract_data w months_back s = (ok None, logged s1 extract_msg e)) /\
  (forall w df phrase folder s s1 e,
     save_body w df phrase folder s = (throw e, s1) ->
     _save_results w df phrase folder s = (ok tt, logged s1 save_msg e)) /\
  (forall w phrase categories months_back folder s s1 s2 s3 data e,
     _search w phrase s = (ok tt, s1) ->
     _filter_categories w categories s1 = (ok tt, s2) ->
     _extract_data w months_back s2 = (ok data, s3) ->
     _add_columns w data phrase = throw e ->
     scrape w phrase categories months_back folder s
     = (ok tt, with_quit (logged s3 scrape_msg e))).
Proof.
  repeat split.
  - unfold scrape, try_finally, try_except, driver_quit, logger_error, modify.
    destruct (scrape_body w phrase categories months_back folder s)
      as [[e | []] s1]; reflexivity.
  - unfold scrape, try_finally, try_except, driver_quit, logger_error, modify.
    destruct (scrape_body w phrase categories months_back folder s)
      as [[e | []] s1]; reflexivity.
  - intros w phrase s s1 e H. unfold _search.
    now rewrite (try_except_throw _ _ _ _ _ H).
  - intros w c rest s s1 e H. unfold _filter_categories.
    now rewrite (try_except_throw _ _ _ _ _ H).
  - intros w months_back s s1 e H. unfold _extract_data.
    rewrite (try_except_throw _ _ s s1 e); [reflexivity |].
    now apply bind_throw.
  - intros w df phrase folder s s1 e H. unfold _save_results.
    now rewrite (try_except_throw _ _ _ _ _ H).
  - intros w phrase categories months_back folder s s1 s2 s3 data e
      H1 H2 H3 H4.
    unfold scrape, try_finally, try_except, scrape_body.
    rewrite (bind_ok _ _ _ _ _ H1), (bind_ok _ _ _ _ _ H2),
      (bind_ok _ _ _ _ _ H3).
    unfold bind, lift. rewrite H4. reflexivity.
Qed.

Lemma scrape_never_raises_witness :
  _extract_data Sample.last_page 2 init_state
  = (ok None, logged init_state extract_msg TimeoutException).
Proof.
  apply (proj1 (proj2 (proj2 (proj2 scrape_never_raises)))
           Sample.last_page 2%Z init_state init_state TimeoutException).
  reflexivity.
Defined.

(** ** Regular expressions: the matcher finds the words *)

Lemma append_assoc (a b c : string) : (a +++ b) +++ c = a +++ b +++ c.
Proof. induction a as [| x a IH]; simpl; [reflexivity | now rewrite IH]. Qed.

Lemma append_eq_empty (a b : string) :
  a +++ b = EmptyString -> a = EmptyString /\ b = EmptyString.
Proof. destruct a; simpl; [now split | discriminate]. Qed.

Lemma append_eq_cons (a b : string) (c : ascii) (s : string) :
  a +++ b = String c s ->
  (a = EmptyString /\ b = String c s) \/
  (exists a', a = String c a' /\ s = a' +++ b).
Proof.
  destruct a as [| x a]; simpl; intro H.
  - now left.
  - injection H as -> <-. right. now exists a.
Qed.

Lemma matches_cat_inv (r1 r2 : Regex.regex) (s : string) :
  Matches (Regex.Cat r1 r2) s ->
  exists s1 s2, s = s1 +++ s2 /\ Matches r1 s1 /\ Matches r2 s2.
Proof. intro H. inversion H; subst. eauto. Qed.

Lemma matches_alt_inv (r1 r2 : Regex.regex) (s : string) :
  Matches (Regex.Alt r1 r2) s -> Matches r1 s \/ Matches r2 s.
Proof. intro H. inversion H; subst; auto. Qed.

Lemma matches_sym_inv (k : Regex.cclass) (s : string) :
  Matches (Regex.Sym k) s ->
  exists c, s = String c EmptyString /\ Regex.cmatch k c = true.
Proof. intro H. inversion H; subst. eauto. Qed.

Lemma matches_eps_inv (s : string) : Matches Regex.Eps s -> s = EmptyString.
Proof. intro H. now inversion H. Qed.

Lemma matches_void_inv (s : string) : ~ Matches Regex.Void s.
Proof. intro H. inversion H. Qed.

(** A non-empty word of [r*] starts with a non-empty word of [r]. *)
Lemma matches_star_inv (r : Regex.regex) (s : string) :
  Matches (Regex.Star r) s ->
  s = EmptyString \/
  exists c s1 s2, s = String c (s1 +++ s2) /\
                  Matches r (String c s1) /\ Matches (Regex.Star r) s2.
Proof.
  intro H. remember (Regex.Star r) as r' eqn:E.
  induction H as [| | | | | r0 | r0 s1 s2 H1 _ H2 IH2]; try discriminate.
  - now left.
  - injection E as ->.
    destruct s1 as [| c s1].
    + simpl. now apply IH2.
    + right. exists c, s1, s2. simpl. repeat split; auto.
Qed.

Lemma nullable_correct (r : Regex.regex) :
  Regex.nullable r = true <-> Matches r EmptyString.
Proof.
  induction r as [| | k | r1 IH1 r2 IH2 | r1 IH1 r2 IH2 | r IH]; simpl.
  - split; [discriminate | intro H; now apply matches_void_inv in H].
  - split; [intros _; constructor | reflexivity].
  - split; [discriminate |].
    intro H. apply matches_sym_inv in H as (c & H & _). discriminate.
  - rewrite andb_true_iff, IH1, IH2. split.
    + intros [H1 H2]. exact (MCat _ _ _ _ H1 H2).
    + intro H. apply matches_cat_inv in H as (s1 & s2 & E & H1 & H2).
      symmetry in E. apply append_eq_empty in E as [-> ->]. now split.
  - rewrite orb_true_iff, IH1, IH2. split.
    + intros [H | H]; [now apply MAltL | now apply MAltR].
    + apply matches_alt_inv.
  - split; [intros _; constructor | reflexivity].
Qed.

Lemma deriv_correct (r : Regex.regex) :
  forall (c : ascii) (s : string),
    Matches (Regex.deriv c r) s <-> Matches r (String c s).
Proof.
  induction r as [| | k | r1 IH1 r2 IH2 | r1 IH1 r2 IH2 | r IH];
    intros c s; simpl.
  - split; intro H; now apply matches_void_inv in H.
  - split; intro H; [now apply matches_void_inv in H |].
    apply matches_eps_inv in H. discriminate.
  - destruct (Regex.cmatch k c) eqn:E; split; intro H.
    + apply matches_eps_inv in H. subst s. now constructor.
    + apply matches_sym_inv in H as (c' & H & _). injection H as -> ->.
      constructor.
    + now apply matches_void_inv in H.
    + apply matches_sym_inv in H as (c' & H & Hc). injection H as -> ->.
      congruence.
  - assert (Hcat : Matches (Regex.Cat (Regex.deriv c r1) r2) s ->
                   Matches (Regex.Cat r1 r2) (String c s)).
    { intro H. apply matches_cat_inv in H as (s1 & s2 & -> & H1 & H2).
      apply IH1 in H1. exact (MCat _ _ _ _ H1 H2). }
    destruct (Regex.nullable r1) eqn:En; split; intro H.
    + apply matches_alt_inv in H as [H | H]; [now apply Hcat |].
      apply IH2 in H. apply nullable_correct in En.
      exact (MCat _ _ _ _ En H).
    + apply matches_cat_inv in H as (s1 & s2 & E & H1 & H2).
      symmetry in E. apply append_eq_cons in E as [[-> ->] | (a' & -> & ->)].
      * apply MAltR. now apply IH2.
      * apply MAltL. apply IH1 in H1. now constructor.
    + now apply Hcat.
    + apply matches_cat_inv in H as (s1 & s2 & E & H1 & H2).
      symmetry in E. apply append_eq_cons in E as [[-> ->] | (a' & -> & ->)].
      * apply nullable_correct in H1. congruence.
      * apply IH1 in H1. now constructor.
  - split; intro H.
    + apply matches_alt_inv in H as [H | H];
        [apply MAltL; now apply IH1 | apply MAltR; now apply IH2].
    + apply matches_alt_inv in H as [H | H];
        [apply MAltL; now apply IH1 | apply MAltR; now apply IH2].
  - split; intro H.
    + apply matches_cat_inv in H as (s1 & s2 & -> & H1 & H2).
      apply IH in H1. exact (MStarS _ _ _ H1 H2).
    + apply matches_star_inv in H as [H | (c' & s1 & s2 & E & H1 & H2)];
        [discriminate |].
      injection E as <- ->. apply IH in H1. now constructor.
Qed.

Lemma match_here_correct (s : string) :
  forall r, Regex.match_here r s = true <->
            exists m rest, s = m +++ rest /\ Matches r m.
Proof.
  induction s as [| c s IH]; intro r; simpl.
  - rewrite orb_false_r, nullable_correct. split.
    + intro H. now exists EmptyString, EmptyString.
    + intros (m & rest & E & H). symmetry in E.
      apply append_eq_empty in E as [-> _]. exact H.
  - rewrite orb_true_iff, nullable_correct, IH. split.
    + intros [H | (m & rest & -> & H)].
      * now exists EmptyString, (String c s).
      * exists (String c m), rest. split; [reflexivity |].
        now apply deriv_correct.
    + intros (m & rest & E & H). symmetry in E.
      apply append_eq_cons in E as [[-> _] | (m' & -> & ->)].
      * now left.
      * right. exists m', rest. split; [reflexivity |].
        now apply deriv_correct.
Qed.

Lemma search_correct (r : Regex.regex) (s : string) :
  Regex.search r s = true <-> exists m, Matches r m /\ occurs_in m s.
Proof.
  unfold occurs_in. induction s as [| c s IH]; cbn [Regex.search].
  - rewrite orb_false_r, match_here_correct. split.
    + intros (m & rest & E & H). exists m. split; [exact H |].
      now exists EmptyString, rest.
    + intros (m & H & pre & post & E). symmetry in E.
      apply append_eq_empty in E as [-> E].
      exists m, post. now split.
  - rewrite orb_true_iff, match_here_correct, IH. split.
    + intros [(m & rest & E & H) | (m & H & pre & post & ->)].
      * exists m. split; [exact H |]. now exists EmptyString, rest.
      * exists m. split; [exact H |]. now exists (String c pre), post.
    + intros (m & H & pre & post & E).
      destruct pre as [| x pre]; simpl in E.
      * left. now exists m, post.
      * injection E as -> ->. right. exists m. split; [exact H |].
        now exists pre, post.
Qed.

(** ** The money pattern *)

Lemma matches_word (w s : string) : Matches (Regex.Word w) s <-> s = w.
Proof.
  revert s. induction w as [| c w IH]; intro s; simpl.
  - split; [apply matches_eps_inv | intros ->; constructor].
  - split.
    + intro H. apply matches_cat_inv in H as (s1 & s2 & -> & H1 & H2).
      apply matches_sym_inv in H1 as (c' & -> & Hc). simpl in Hc.
      apply Ascii.eqb_eq in Hc as ->. apply IH in H2 as ->. reflexivity.
    + intros ->. change (String c w) with (String c EmptyString +++ w).
      constructor; [constructor; simpl; apply Ascii.eqb_refl | now apply IH].
Qed.

Lemma matches_digits (s : string) :
  Matches (Regex.Star (Regex.Sym Regex.CDigit)) s <-> all_digits s = true.
Proof.
  induction s as [| c s IH]; simpl.
  - split; [reflexivity | intros _; constructor].
  - rewrite andb_true_iff, <- IH. split.
    + intro H.
      apply matches_star_inv in H as [H | (c' & s1 & s2 & E & H1 & H2)];
        [discriminate |].
      apply matches_sym_inv in H1 as (c'' & E1 & Hc).
      injection E1 as -> ->. injection E as -> ->. now split.
    + intros [Hc H].
      change (String c s) with (String c EmptyString +++ s).
      constructor; [now constructor | exact H].
Qed.

Lemma matches_number (s : string) :
  Matches (Regex.Plus (Regex.Sym Regex.CDigit)) s <-> is_number s = true.
Proof.
  unfold Regex.Plus. split.
  - intro H. apply matches_cat_inv in H as (s1 & s2 & -> & H1 & H2).
    apply matches_sym_inv in H1 as (c & -> & Hc). simpl in Hc |- *.
    apply matches_digits in H2. now rewrite Hc, H2.
  - destruct s as [| c s]; [discriminate |]. simpl.
    intro H. apply andb_true_iff in H as [Hc H].
    change (String c s) with (String c EmptyString +++ s).
    constructor; [now constructor | now apply matches_digits].
Qed.

Lemma matches_opt (r : Regex.regex) (s : string) :
  Matches (Regex.Opt r) s <-> Matches r s \/ s = EmptyString.
Proof.
  unfold Regex.Opt. split.
  - intro H. apply matches_alt_inv in H as [H | H]; [now left |].
    right. now apply matches_eps_inv.
  - intros [H | ->]; [now apply MAltL | apply MAltR; constructor].
Qed.

Lemma matches_char (a : ascii) (s : string) :
  Matches (Regex.Sym (Regex.CChar a)) s <-> s = String a EmptyString.
Proof.
  split.
  - intro H. apply matches_sym_inv in H as (c & -> & Hc). simpl in Hc.
    now apply Ascii.eqb_eq in Hc as ->.
  - intros ->. constructor. simpl. apply Ascii.eqb_refl.
Qed.

Lemma matches_unit_word (s : string) :
  Matches (Regex.Alt (Regex.Word "dollars") (Regex.Word "USD")) s <->
  s = "dollars" \/ s = "USD".
Proof.
  split.
  - intro H. apply matches_alt_inv in H as [H | H];
      apply matches_word in H; auto.
  - intros [-> | ->]; [apply MAltL | apply MAltR]; now apply matches_word.
Qed.

(** The words of [money_regex] are the currency mentions. *)
Lemma money_regex_words (m : string) :
  Matches Regex.money_regex m <-> currency_mention m.
Proof.
  unfold Regex.money_regex. split.
  - intro H. apply matches_alt_inv in H as [H | H].
    + apply matches_cat_inv in H as (s1 & t & -> & H1 & H).
      apply matches_char in H1 as ->.
      apply matches_cat_inv in H as (n & o & -> & Hn & Ho).
      apply matches_number in Hn.
      apply matches_opt in Ho as [Ho | ->].
      * apply matches_cat_inv in Ho as (d & f & -> & Hd & Hf).
        apply matches_char in Hd as ->. apply matches_number in Hf.
        exact (dollar_amount_fraction n f Hn Hf).
      * rewrite append_empty_r. exact (dollar_amount n Hn).
    + apply matches_cat_inv in H as (n & t & -> & Hn & H).
      apply matches_number in Hn.
      apply matches_cat_inv in H as (g & t' & -> & Hg & H).
      apply matches_cat_inv in H as (b & word & -> & Hb & Hw).
      apply matches_unit_word in Hw.
      apply matches_opt in Hg as [Hg | ->];
        apply matches_opt in Hb as [Hb | ->].
      * apply matches_cat_inv in Hg as (d & g' & -> & Hd & Hg).
        apply matches_char in Hd as ->. apply matches_number in Hg.
        apply matches_sym_inv in Hb as (c & -> & Hc).
        rewrite append_assoc.
        exact (amount_group_blank_word n g' c word Hn Hg Hc Hw).
      * apply matches_cat_inv in Hg as (d & g' & -> & Hd & Hg).
        apply matches_char in Hd as ->. apply matches_number in Hg.
        rewrite append_assoc.
        exact (amount_group_word n g' word Hn Hg Hw).
      * apply matches_sym_inv in Hb as (c & -> & Hc).
        exact (amount_blank_word n c word Hn Hc Hw).
      * exact (amount_word n word Hn Hw).
  - intro H.
    assert (Hdollar : Matches (Regex.Sym (Regex.CChar "$")) "$")
      by now apply matches_char.
    assert (Hnone : forall r, Matches (Regex.Opt r) EmptyString)
      by (intro r; apply matches_opt; now right).
    destruct H as [n Hn | n f Hn Hf | n word Hn Hw | n c word Hn Hc Hw
                   | n g word Hn Hg Hw | n g c word Hn Hg Hc Hw];
      apply matches_number in Hn;
      try apply matches_number in Hf; try apply matches_number in Hg;
      try apply matches_unit_word in Hw.
    + apply MAltL. apply (MCat _ _ "$" n); [exact Hdollar |].
      rewrite <- (append_empty_r n). now apply MCat.
    + apply MAltL. apply (MCat _ _ "$" (n +++ "." +++ f)); [exact Hdollar |].
      apply MCat; [exact Hn |]. apply matches_opt. left.
      apply (MCat _ _ "." f); [now apply matches_char | exact Hf].
    + apply MAltR. apply MCat; [exact Hn |].
      apply (MCat _ _ EmptyString word); [apply Hnone |].
      apply (MCat _ _ EmptyString word); [apply Hnone | exact Hw].
    + apply MAltR. apply MCat; [exact Hn |].
      apply (MCat _ _ EmptyString (String c word)); [apply Hnone |].
      apply (MCat _ _ (String c EmptyString) word); [| exact Hw].
      apply matches_opt. left. now constructor.
    + apply MAltR. apply MCat; [exact Hn |].
      apply (MCat _ _ ("," +++ g) word).
      * apply matches_opt. left.
        apply (MCat _ _ "," g); [now apply matches_char | exact Hg].
      * apply (MCat _ _ EmptyString word); [apply Hnone | exact Hw].
    + apply MAltR. apply MCat; [exact Hn |].
      apply (MCat _ _ ("," +++ g) (String c word)).
      * apply matches_opt. left.
        apply (MCat _ _ "," g); [now apply matches_char | exact Hg].
      * apply (MCat _ _ (String c EmptyString) word); [| exact Hw].
        apply matches_opt. left. now constructor.
Qed.

(** The flag of one row is true exactly when a word of the pattern occurs
    in the title, one space and the description put together. *)
Lemma row_has_money_iff (title description : string) :
  row_has_money title description = true <->
  exists m, currency_mention m /\
            occurs_in m (title +++ " " +++ description).
Proof.
  unfold row_has_money. rewrite search_correct.
  split; intros (m & H & Ho); exists m; (split; [| exact Ho]);
    now apply money_regex_words.
Qed.

Lemma has_money_column_nth (titles : list string) :
  forall (descriptions : list string) (i : nat) (t d : string),
    nth_error titles i = Some t ->
    nth_error descriptions i = Some d ->
    nth_error (has_money_column titles descriptions) i
    = Some (row_has_money t d).
Proof.
  induction titles as [| t0 titles IH]; intros descriptions i t d Ht Hd.
  - destruct i; discriminate.
  - destruct descriptions as [| d0 descriptions]; [destruct i; discriminate |].
    destruct i as [| i]; simpl in *.
    + injection Ht as ->. injection Hd as ->. reflexivity.
    + now apply IH.
Qed.

Lemma add_columns_has_money (w : World) (df : DataFrame) (phrase : string)
  (ef : EnrichedFrame) :
  _add_columns w (Some df) phrase = ok ef ->
  has_money ef = has_money_column (Title df) (Description df).
Proof.
  unfold _add_columns. destruct (Date df); [discriminate |].
  destruct (str_count_column w _ (map Text.lower (Title df))) as [e | ct];
    [discriminate |].
  destruct (str_count_column w _ (map Text.lower (Description df)))
    as [e | cd]; [discriminate |].
  simpl. intro H. now injection H as <-.
Qed.

(** C8, counterexample: the pattern asks for no word boundary, so the row
    titled "7USDA approves" is flagged though "USD" is no word of it. *)
Lemma has_money_as_stated_fails : ~ has_money_as_stated.
Proof.
  intro H.
  specialize (H (Sample.world []) (Sample.one_row "7USDA approves" "")
                "argentina"
                (mk_enriched (Sample.one_row "7USDA approves" "")
                             ["argentina"] [0] [true])
                0 "7USDA approves" "" eq_refl eq_refl eq_refl).
  vm_compute in H. discriminate H.
Qed.

(** The other way round: two blanks before the word are not accepted by
    the pattern, and a title and a description can make a mention
    together. *)
Example has_money_differs_from_the_words :
  row_has_money "He paid 5  dollars" "" = false /\
  mention_as_worded ("He paid 5  dollars" +++ " " +++ "") = true /\
  row_has_money "Route 66" "USDA rule" = true /\
  mention_as_worded ("Route 66" +++ " " +++ "USDA rule") = false.
Proof. repeat split. Qed.

(** C8, amended: the flag of each row of the enriched frame is true
    exactly when the title, one space and the description put together
    contain a word of the pattern of line 217: a dollar sign and digits,
    possibly followed by a period and digits; or digits, possibly followed by
    a comma and digits, followed directly or after one blank by the letters
    "dollars" or "USD" (case kept, no word boundary asked for).  It says
    whether there is one, not how many. *)
Theorem has_money_column_iff_currency_mention (w : World) (df : DataFrame)
  (phrase : string) (ef : EnrichedFrame) (i : nat) (t d : string) :
  _add_columns w (Some df) phrase = ok ef ->
  nth_error (Title df) i = Some t ->
  nth_error (Description df) i = Some d ->
  exists b : bool,
    nth_error (has_money ef) i = Some b /\
    (b = true <->
     exists m, currency_mention m /\ occurs_in m (t +++ " " +++ d)).
Proof.
  intros Hadd Ht Hd. exists (row_has_money t d). split.
  - rewrite (add_columns_has_money _ _ _ _ Hadd).
    now apply has_money_column_nth.
  - apply row_has_money_iff.
Qed.

Lemma has_money_column_iff_currency_mention_witness :
  exists b : bool,
    nth_error [false; true] 1 = Some b /\
    (b = true <->
     exists m, currency_mention m /\
               occurs_in m ("Argentina wins" +++ " " +++ "cost $50")).
Proof.
  apply (has_money_column_iff_currency_mention (Sample.world [])
           (frame_of_rows [Sample.row_recent; Sample.row_august])
           "argentina"
           (mk_enriched (frame_of_rows [Sample.row_recent; Sample.row_august])
                        ["argentina"; "argentina"] [0; 1] [false; true])
           1 "Argentina wins" "cost $50");
    reflexivity.
Defined.

(** ** The search phrase as a pattern *)

Lemma special_dot (c : ascii) :
  Regex.is_special c = false -> Ascii.eqb c "." = false.
Proof.
  unfold Regex.is_special. simpl.
  destruct (Ascii.eqb c "."); [discriminate | reflexivity].
Qed.

Lemma compile_plain (pat : string) :
  plain pat = true -> Regex.compile_phrase pat = Some (literal_atoms pat).
Proof.
  induction pat as [| c pat IH]; [reflexivity |].
  cbn [plain Regex.compile_phrase literal_atoms]. intro H.
  apply andb_true_iff in H as [Hc Hp]. apply negb_true_iff in Hc.
  now rewrite (special_dot c Hc), Hc, (IH Hp).
Qed.

Lemma atoms_match_literal (pat : string) :
  forall s, Regex.atoms_match (literal_atoms pat) s = prefix pat s.
Proof.
  induction pat as [| a pat IH]; intro s.
  - simpl. now destruct s.
  - destruct s as [| b s]; [reflexivity |].
    cbn [literal_atoms Regex.atoms_match Regex.cmatch prefix].
    rewrite IH. destruct (ascii_dec a b) as [<- | Hne].
    + now rewrite Ascii.eqb_refl.
    + replace (Ascii.eqb b a) with false; [reflexivity |].
      symmetry. apply Ascii.eqb_neq. congruence.
Qed.

Lemma literal_atoms_length (pat : string) :
  List.length (literal_atoms pat) = String.length pat.
Proof. induction pat as [| a pat IH]; simpl; [reflexivity | now rewrite IH]. Qed.

Lemma findall_literal (pat s : string) :
  forall skip,
    Regex.findall_skip (literal_atoms pat) s skip = Text.count_skip pat s skip.
Proof.
  induction s as [| c s IH]; intro skip; [reflexivity |].
  cbn [Regex.findall_skip Text.count_skip].
  destruct skip as [| k]; [| apply IH].
  rewrite atoms_match_literal, literal_atoms_length, !IH. reflexivity.
Qed.

(** On a phrase without special characters the pattern count is the count
    of the phrase as a substring. *)
Lemma str_count_plain (w : World) (pat s : string) :
  plain pat = true -> str_count w pat s = ok (Text.count pat s).
Proof.
  intro H. unfold str_count. rewrite (compile_plain pat H).
  destruct pat as [| c pat]; [reflexivity |].
  unfold Regex.findall_count, Text.count.
  cbn [literal_atoms]. f_equal. apply (findall_literal (String c pat)).
Qed.

Lemma row_search_phrase_count_plain (w : World)
  (phrase title description : string) :
  plain (Text.lower phrase) = true ->
  row_search_phrase_count w phrase title description
  = ok (Text.count (Text.lower phrase) (Text.lower title)
        + Text.count (Text.lower phrase) (Text.lower description)).
Proof.
  intro H. unfold row_search_phrase_count.
  now rewrite !(str_count_plain w _ _ H).
Qed.

(** C7, the input that shows the defect: line 221 hands the phrase to
    [str.count], which reads it as a regular expression.  For the phrase
    "U.S." and the title "Guest list" the count is 1 (the dots match the
    "e" and the "t" of "uest"), while the phrase occurs nowhere in the
    title; the scenario "dollars" of the specification gives 2. *)
Theorem search_phrase_count_reads_phrase_as_pattern (w : World) :
  row_search_phrase_count w "U.S." "Guest list" "" = ok 1 /\
  Text.count (Text.lower "U.S.") (Text.lower "Guest list")
    + Text.count (Text.lower "U.S.") (Text.lower "") = 0 /\
  row_search_phrase_count w "dollars" "dollars dollars" "" = ok 2.
Proof. repeat split. Qed.

(** * Further properties *)

(** ** [_filter_categories] *)

Lemma select_categories_effect (w : World) (categories : list string) :
  forall s,
    select_categories w categories s
    = (ok tt,
       mk_state (st_page s) (st_query s)
         (st_checked s ++ filter (known w) categories)
         (st_log s ++ map (fun c => LogWarning c (w_labels w))
                          (filter (unknown w) categories))
         (st_folders s) (st_files s) (st_quit s)).
Proof.
  induction categories as [| c rest IH]; intro s.
  - simpl. rewrite !app_nil_r. now destruct s.
  - cbn [select_categories filter]. unfold bind, unknown.
    fold (known w c). destruct (known w c); cbn [negb].
    + unfold click_checkbox, modify. rewrite IH. cbn [st_page st_query
        st_checked st_log st_folders st_files st_quit].
      now rewrite <- app_assoc.
    + unfold logger_warning, modify. rewrite IH. cbn [st_page st_query
        st_checked st_log st_folders st_files st_quit with_log map].
      now rewrite <- app_assoc.
Qed.

(** When the filter panel answers (filter button, see-all button and apply
    button each clickable in time), the boxes clicked are the requested
    categories that the panel offers, in the order requested, and each of
    the others leaves one warning, in that order; nothing else changes and
    no error is logged. *)
Theorem filter_categories_clicks_known (w : World) (categories : list string)
  (s : State) :
  w_filter_button w = true ->
  w_see_all_button w = true ->
  w_apply_button w = true ->
  _filter_categories w categories s
  = (ok tt,
     mk_state (st_page s) (st_query s)
       (st_checked s ++ filter (known w) categories)
       (st_log s ++ map (fun c => LogWarning c (w_labels w))
                        (filter (unknown w) categories))
       (st_folders s) (st_files s) (st_quit s)).
Proof.
  intros Hf Ha Hp. destruct categories as [| c rest].
  - simpl. rewrite !app_nil_r. now destruct s.
  - unfold _filter_categories, filter_body, try_except, bind, wait_until.
    rewrite Hf, Ha, Hp. cbn [ret ok].
    now rewrite (select_categories_effect w (c :: rest) s).
Qed.

Lemma filter_categories_clicks_known_witness :
  _filter_categories (Sample.world []) ["Sports"; "World & Nation"] init_state
  = (ok tt,
     mk_state 0 None ["World & Nation"]
              [LogWarning "Sports" ["World & Nation"]] [] [] false).
Proof.
  apply (filter_categories_clicks_known (Sample.world [])
           ["Sports"; "World & Nation"] init_state); reflexivity.
Defined.

(** ** What [_extract_data] reads and writes *)

Section Frame.

Variable w : World.
Variables today cutoff : datetime.

Lemma pages_loop_frame (n : nat) :
  forall (a : Acc) (s : State),
    pages_loop w today cutoff n a s
    = (fst (pages_loop w today cutoff n a (fresh_at s)),
       with_page s (st_page (snd (pages_loop w today cutoff n a (fresh_at s))))).
Proof.
  induction n as [| n IH]; intros a s.
  - simpl. now rewrite with_page_same.
  - assert (Hstay : forall (r : result Acc),
              (r, s) = (fst (r, fresh_at s),
                        with_page s (st_page (snd (r, fresh_at s))))).
    { intro r. simpl. now rewrite with_page_same. }
    cbn [pages_loop].
    unfold wait_results, wait_next_clickable, wait_next_present, click_next,
      bind, current_page, lift, modify, wait_until, ret, raise, ok, throw.
    change (st_page (fresh_at s)) with (st_page s).
    destruct (nth_error (w_pages w) (st_page s)) as [pg |] eqn:Ep;
      [| apply Hstay].
    destruct (p_results pg) as [| li lis]; [apply Hstay |].
    destruct (process_entries today cutoff (li :: lis) a) as [e | [a1 | a1]];
      [apply Hstay | | apply Hstay].
    change (st_page (fresh_at s)) with (st_page s). rewrite Ep.
    destruct (p_next_clickable pg); [| apply Hstay].
    cbn [st_page with_page fresh_at].
    destruct (nth_error (w_pages w) (S (st_page s))) as [pg' |];
      [| reflexivity].
    destruct (p_next_present pg'); [| reflexivity].
    rewrite (IH a1 (with_page s (S (st_page s)))).
    reflexivity.
Qed.

End Frame.

Lemma transplant_page (s : State) (n : nat) :
  transplant s (with_page (fresh_at s) n) = with_page s n.
Proof. unfold transplant. simpl. rewrite app_nil_r. now destruct s. Qed.

Lemma extract_data_frame (w : World) (months_back : Z) (s : State) :
  _extract_data w months_back s
  = (fst (_extract_data w months_back (fresh_at s)),
     transplant s (snd (_extract_data w months_back (fresh_at s)))).
Proof.
  rewrite !extract_data_cases.
  destruct (date_min (w_today w) months_back) as [e | cutoff];
    [reflexivity |].
  rewrite (pages_loop_frame w (w_today w) cutoff 9 empty_acc s).
  destruct (pages_loop_state w (w_today w) cutoff 9 empty_acc (fresh_at s))
    as (k & _ & Hs).
  destruct (pages_loop w (w_today w) cutoff 9 empty_acc (fresh_at s))
    as [[e | a] s1]; cbn [fst snd] in Hs |- *; subst s1.
  - reflexivity.
  - destruct (pd_DataFrame a) as [e | df]; cbn [fst snd].
    + reflexivity.
    + now rewrite transplant_page.
Qed.

(** The extraction reads nothing of the state but the page shown, and
    changes nothing but the page and the log: run on any state, it returns
    what it returns on a fresh state showing the same page, ends on the same
    page and adds the same log lines; the query, the boxes clicked, the
    folders, the files and the quit flag are as before. *)
Theorem extract_data_reads_only_the_page (w : World) (months_back : Z)
  (s : State) :
  _extract_data w months_back s
  = (fst (_extract_data w months_back (fresh_at s)),
     transplant s (snd (_extract_data w months_back (fresh_at s)))).
Proof. apply extract_data_frame. Qed.

(** ** Runs that end without a frame *)

Lemma search_untouched (w : World) (phrase : string) (s : State) :
  exists s1, _search w phrase s = (ok tt, s1) /\ untouched s s1.
Proof.
  unfold _search, search_body, try_except, bind, wait_until, set_query,
    logger_error, modify, ret, raise, untouched.
  destruct (w_search_button w), (w_search_box w), (w_sort_select w);
    eexists; (split; [reflexivity | now repeat split]).
Qed.

Lemma filter_untouched (w : World) (categories : list string) (s : State) :
  exists s1, _filter_categories w categories s = (ok tt, s1) /\
             untouched s s1.
Proof.
  destruct categories as [| c rest].
  - exists s. split; [reflexivity | now repeat split].
  - unfold _filter_categories, filter_body, try_except, bind, wait_until,
      logger_error, modify, ret, raise, untouched.
    destruct (w_filter_button w);
      [| eexists; split; [reflexivity | now repeat split]].
    destruct (w_see_all_button w);
      [| eexists; split; [reflexivity | now repeat split]].
    rewrite (select_categories_effect w (c :: rest) s).
    destruct (w_apply_button w); eexists;
      (split; [reflexivity | now repeat split]).
Qed.

(** When the extraction, from the page shown, logs [e] and returns no
    frame, the run ends with that line and the TypeError of line 220 in the
    log, and the disk as it was. *)
Lemma scrape_loses_run (w : World) (phrase : string)
  (categories : list string) (months_back : Z) (folder : string)
  (s : State) (e : exn) (k : nat) :
  (forall s0, st_page s0 = st_page s ->
     _extract_data w months_back s0
     = (ok None, log_failure (with_page s0 (st_page s0 + k)) e)) ->
  exists s',
    scrape w phrase categories months_back folder s = (ok tt, s') /\
    st_page s' = st_page s + k /\
    st_folders s' = st_folders s /\
    st_files s' = st_files s /\
    In (LogError extract_msg e) (st_log s') /\
    In (LogError scrape_msg TypeError) (st_log s').
Proof.
  intro Hex.
  destruct (search_untouched w phrase s) as (s1 & H1 & Hp1 & Hd1 & Hf1).
  destruct (filter_untouched w categories s1) as (s2 & H2 & Hp2 & Hd2 & Hf2).
  assert (H0 : st_page s2 = st_page s) by congruence.
  eexists. split.
  - exact (scrape_without_frame _ _ _ _ _ _ _ _ _ H1 H2 (Hex s2 H0)).
  - simpl. repeat split; try congruence.
    + apply in_or_app. left. apply in_or_app. right. now left.
    + apply in_or_app. right. now left.
Qed.

Lemma date_min_out_of_range (today : datetime) (months_back : Z) :
  (month today - months_back < 1 \/ 12 < month today - months_back)%Z ->
  date_min today months_back = throw (month_error today months_back).
Proof.
  intro H. unfold date_min, datetime_new, month_error.
  replace (fits_c_int 1) with true by reflexivity. rewrite andb_true_r.
  destruct (fits_c_int (year today)
            && fits_c_int (month today - months_back)); [| reflexivity].
  replace (_ && _)%bool with false; [reflexivity |].
  symmetry. destruct H as [H | H].
  - replace (1 <=? month today - months_back)%Z with false
      by (symmetry; apply Z.leb_gt; lia).
    now rewrite !andb_false_r.
  - replace (month today - months_back <=? 12)%Z with false
      by (symmetry; apply Z.leb_gt; lia).
    now rewrite !andb_false_r.
Qed.

(** When [today.month - months_back] is not a month number (in February
    with two months back, say), line 148 raises before any page is read,
    ValueError or, for a month that does not fit a C int, OverflowError: the
    extraction logs it and returns no frame, the browser stays where it
    was, and the run writes no file. *)
Theorem month_out_of_range_stops_run (w : World) (months_back : Z)
  (s : State) :
  (month (w_today w) - months_back < 1
   \/ 12 < month (w_today w) - months_back)%Z ->
  _extract_data w months_back s
    = (ok None, log_failure s (month_error (w_today w) months_back)) /\
  (forall phrase categories folder,
   exists s',
     scrape w phrase categories months_back folder s = (ok tt, s') /\
     st_page s' = st_page s /\
     st_files s' = st_files s).
Proof.
  intro H.
  assert (Hex : forall s0,
            _extract_data w months_back s0
            = (ok None, log_failure s0 (month_error (w_today w) months_back))).
  { intro s0. rewrite extract_data_cases.
    now rewrite (date_min_out_of_range _ _ H). }
  split; [apply Hex |].
  intros phrase categories folder.
  destruct (scrape_loses_run w phrase categories months_back folder s
              (month_error (w_today w) months_back) 0)
    as (s' & Hs & Hp & _ & Hf & _).
  - intros s0 _. now rewrite Nat.add_0_r, with_page_same.
  - exists s'. rewrite Nat.add_0_r in Hp. auto.
Qed.

Lemma month_out_of_range_stops_run_witness :
  _extract_data Sample.february 2 init_state
    = (ok None, log_failure init_state ValueError) /\
  _extract_data Sample.february (2 ^ 40) init_state
    = (ok None, log_failure init_state OverflowError).
Proof.
  split.
  - apply (month_out_of_range_stops_run Sample.february 2%Z init_state).
    simpl. lia.
  - apply (month_out_of_range_stops_run Sample.february (2 ^ 40)%Z
             init_state).
    simpl. lia.
Defined.

Lemma today_not_below_cutoff (today cutoff : datetime) (months_back : Z) :
  (0 <= months_back)%Z ->
  valid_clock today ->
  date_min today months_back = ok cutoff ->
  datetime_lt today cutoff = false.
Proof.
  intros Hm (Hd & Hh & Hmi & Hs & Hu). unfold date_min.
  intro H. apply datetime_new_day in H as [-> _].
  unfold datetime_lt, datetime_key. cbn [lex_lt year month day hour minute
    second microsecond].
  rewrite Z.ltb_irrefl, Z.eqb_refl.
  replace (month today <? month today - months_back)%Z with false
    by (symmetry; apply Z.ltb_ge; lia).
  replace (day today <? 1)%Z with false by (symmetry; apply Z.ltb_ge; lia).
  replace (hour today <? 0)%Z with false by (symmetry; apply Z.ltb_ge; lia).
  replace (minute today <? 0)%Z with false by (symmetry; apply Z.ltb_ge; lia).
  replace (second today <? 0)%Z with false by (symmetry; apply Z.ltb_ge; lia).
  replace (microsecond today <? 0)%Z with false
    by (symmetry; apply Z.ltb_ge; lia).
  cbn [orb andb]. now rewrite !andb_false_r.
Qed.

(** With [months_back] not negative, an entry whose text (stripped of its
    periods) contains "ago" is never below the cutoff: it gets today's date
    and, having its other three elements, is appended. *)
Theorem ago_entry_is_kept (today cutoff : datetime) (months_back : Z)
  (li : Entry) (text t d : string) (p : option string) (a : Acc) :
  (0 <= months_back)%Z ->
  valid_clock today ->
  date_min today months_back = ok cutoff ->
  e_timestamp li = Some text ->
  Text.contains "ago" (Text.remove_char "." text) = true ->
  e_title li = Some t ->
  e_description li = Some d ->
  e_image li = Some p ->
  process_entry today cutoff li a
  = ok (Continue (append_row a (mk_row today t d p))).
Proof.
  intros Hm Hv Hc Ht Hago Htt Hd Hp.
  apply process_entry_kept.
  - unfold entry_row. rewrite Ht, Htt, Hd, Hp, normalize_unfold, Hago.
    reflexivity.
  - exact (today_not_below_cutoff _ _ _ Hm Hv Hc).
Qed.

Lemma ago_entry_is_kept_witness :
  process_entry Sample.today (mk_datetime 2023 8 1 0 0 0 0) Sample.recent
                empty_acc
  = ok (Continue (append_row empty_acc Sample.row_recent)).
Proof.
  apply (ago_entry_is_kept Sample.today (mk_datetime 2023 8 1 0 0 0 0) 0%Z
           Sample.recent "2 hours ago" "dollars dollars" ""
           (Some "https://example.org/a.jpg") empty_acc);
    solve [reflexivity | lia | unfold valid_clock; simpl; lia].
Defined.

Lemma process_entry_lacks_element (today cutoff : datetime) (li : Entry)
  (text : string) (date : datetime) (a : Acc) :
  e_timestamp li = Some text ->
  normalize today text = ok date ->
  datetime_lt date cutoff = false ->
  lacks_element li ->
  process_entry today cutoff li a = throw NoSuchElementException.
Proof.
  intros Ht Hn Hlt. unfold process_entry, lacks_element. rewrite Ht. simpl.
  rewrite Hn. simpl. rewrite Hlt.
  destruct (e_title li) as [t |]; [| reflexivity]. simpl.
  destruct (e_description li) as [d |]; [| reflexivity]. simpl.
  destruct (e_image li) as [p |]; [| reflexivity].
  intros [H | [H | H]]; discriminate.
Qed.

(** An entry that is to be kept but has no title, no description or no
    image element (an article without a picture, say) ends the extraction:
    NoSuchElementException reaches the handler, the rows read before it are
    dropped, no frame is returned and the run writes no file. *)
Theorem missing_element_loses_run
  (w : World) (months_back : Z) (s : State) (cutoff : datetime) (k : nat)
  (rows rows' : list Row) (pg : Page) (pre post : list Entry) (li : Entry)
  (text : string) (date : datetime) :
  date_min (w_today w) months_back = ok cutoff ->
  k < 9 ->
  consumed (w_today w) cutoff (skipn (st_page s) (w_pages w)) k = Some rows ->
  nth_error (w_pages w) (st_page s + k) = Some pg ->
  p_results pg = pre ++ li :: post ->
  rows_of (w_today w) cutoff pre = Some rows' ->
  e_timestamp li = Some text ->
  normalize (w_today w) text = ok date ->
  datetime_lt date cutoff = false ->
  lacks_element li ->
  _extract_data w months_back s
    = (ok None,
       log_failure (with_page s (st_page s + k)) NoSuchElementException) /\
  (forall phrase categories folder,
   exists s',
     scrape w phrase categories months_back folder s = (ok tt, s') /\
     st_files s' = st_files s).
Proof.
  intros Hc Hk Hcons Hp Hr Hrows Ht Hn Hlt Hl.
  assert (Hex : forall s0, st_page s0 = st_page s ->
            _extract_data w months_back s0
            = (ok None, log_failure (with_page s0 (st_page s0 + k))
                                    NoSuchElementException)).
  { intros s0 H0.
    apply (extract_data_stop w months_back s0 cutoff k rows rows' pg pre post
             li Hc Hk); try rewrite H0; auto.
    now apply (process_entry_lacks_element _ _ _ text date). }
  split; [now apply Hex |].
  intros phrase categories folder.
  destruct (scrape_loses_run w phrase categories months_back folder s
              NoSuchElementException k Hex) as (s' & Hs & _ & _ & Hf & _).
  now exists s'.
Qed.

Lemma missing_element_loses_run_witness :
  _extract_data Sample.imageless 2 init_state
  = (ok None, log_failure init_state NoSuchElementException).
Proof.
  apply (missing_element_loses_run Sample.imageless 2%Z init_state
           (mk_datetime 2023 6 1 0 0 0 0) 0 [] [Sample.row_recent]
           (mk_page [Sample.recent; Sample.no_image; Sample.august] true true)
           [Sample.recent] [Sample.august] Sample.no_image
           "Aug. 2, 2023" (mk_datetime 2023 8 2 0 0 0 0));
    solve [reflexivity | simpl; lia | right; right; reflexivity].
Defined.

(** A search without results: no [li] is located on the page shown, the
    wait of line 154 times out, the extraction returns no frame (not an
    empty one) and the run writes no file. *)
Theorem no_results_no_file (w : World) (months_back : Z) (s : State)
  (cutoff : datetime) :
  date_min (w_today w) months_back = ok cutoff ->
  (forall pg, nth_error (w_pages w) (st_page s) = Some pg ->
              p_results pg = []) ->
  _extract_data w months_back s
    = (ok None, log_failure s TimeoutException) /\
  (forall phrase categories folder,
   exists s',
     scrape w phrase categories months_back folder s = (ok tt, s') /\
     st_files s' = st_files s).
Proof.
  intros Hc Hnone.
  assert (Hex : forall s0, st_page s0 = st_page s ->
            _extract_data w months_back s0
            = (ok None, log_failure s0 TimeoutException)).
  { intros s0 H0. rewrite extract_data_cases. unfold ok in Hc. rewrite Hc.
    cbv beta iota. cbn [pages_loop].
    unfold wait_results, bind, current_page, raise, ok, throw. rewrite H0.
    destruct (nth_error (w_pages w) (st_page s)) as [pg |] eqn:Ep;
      [| reflexivity].
    now rewrite (Hnone pg eq_refl). }
  split; [now apply Hex |].
  intros phrase categories folder.
  destruct (scrape_loses_run w phrase categories months_back folder s
              TimeoutException 0) as (s' & Hs & _ & _ & Hf & _).
  - intros s0 H0. rewrite Nat.add_0_r, with_page_same. now apply Hex.
  - now exists s'.
Qed.

Lemma no_results_no_file_witness :
  _extract_data Sample.no_results 0 init_state
  = (ok None, log_failure init_state TimeoutException).
Proof.
  apply (no_results_no_file Sample.no_results 0%Z init_state
           (mk_datetime 2023 8 1 0 0 0 0) eq_refl).
  intros pg H. injection H as <-. reflexivity.
Defined.

(** ** [_save_results] *)

Lemma save_results_ok (w : World) (df : EnrichedFrame)
  (phrase folder : string) (s : State) :
  (existsb (String.eqb folder) (st_folders s) || w_makedirs w)
  && w_to_excel w = true ->
  _save_results w df phrase folder s
  = (ok tt, saved s folder (save_path w folder phrase) df).
Proof.
  intro H. apply andb_true_iff in H as [Hd He].
  unfold _save_results, save_body, try_except, bind, folder_exists,
    add_folder, write_file, modify, ret, raise, saved, save_path.
  cbn [ok throw]. rewrite He.
  destruct (existsb (String.eqb folder) (st_folders s)); [reflexivity |].
  simpl in Hd. rewrite Hd. reflexivity.
Qed.



Lemma replace_char_free (a b : ascii) (s : string) :
  a <> b -> free_of a (replace_char a b s) = true.
Proof.
  intro Hne. induction s as [| c s IH]; [reflexivity |].
  cbn [replace_char free_of]. rewrite IH, andb_true_r.
  destruct (Ascii.eqb c a) eqn:E.
  - apply negb_true_iff. apply Ascii.eqb_neq. congruence.
  - now rewrite E.
Qed.

(** The file name made of the phrase has no space left, is as long as the
    phrase, and is the phrase itself when the phrase has no space. *)
Theorem phrase_in_file_name (phrase : string) :
  free_of " " (replace_char " " "_" phrase) = true /\
  String.length (replace_char " " "_" phrase) = String.length phrase /\
  (free_of " " phrase = true -> replace_char " " "_" phrase = phrase).
Proof.
  split; [apply replace_char_free; discriminate |].
  split.
  - induction phrase as [| c s IH]; simpl; [reflexivity | now rewrite IH].
  - induction phrase as [| c s IH]; [reflexivity |].
    cbn [free_of replace_char]. intro H.
    apply andb_true_iff in H as [Hc Hs]. apply negb_true_iff in Hc.
    now rewrite Hc, (IH Hs).
Qed.

Lemma phrase_in_file_name_witness :
  replace_char " " "_" "argentina" = "argentina".
Proof.
  apply (proj2 (proj2 (phrase_in_file_name "argentina"))). reflexivity.
Defined.

(** ** A run that succeeds *)

(** When the extraction from the page shown returns a frame with at least
    one row, the enrichment succeeds and the frame can be saved, [scrape]
    writes the
    enriched frame at the path of line 249 and quits the driver, whether
    the search and the filtering succeeded or only logged their failure. *)
Theorem scrape_writes_enriched_frame (w : World) (phrase : string)
  (categories : list string) (months_back : Z) (folder : string)
  (s : State) (df : DataFrame) (ef : EnrichedFrame) :
  fst (_extract_data w months_back s) = ok (Some df) ->
  Date df <> [] ->
  _add_columns w (Some df) phrase = ok ef ->
  (existsb (String.eqb folder) (st_folders s) || w_makedirs w)
  && w_to_excel w = true ->
  exists s',
    scrape w phrase categories months_back folder s = (ok tt, s') /\
    st_files s' = (save_path w folder phrase, ef) :: st_files s /\
    st_quit s' = true.
Proof.
  intros Hex _ Hadd Hsave.
  destruct (search_untouched w phrase s) as (s1 & H1 & Hp1 & Hd1 & Hf1).
  destruct (filter_untouched w categories s1) as (s2 & H2 & Hp2 & Hd2 & Hf2).
  assert (Hfresh : fresh_at s2 = fresh_at s)
    by (unfold fresh_at; congruence).
  rewrite extract_data_frame in Hex. cbn [fst] in Hex.
  pose proof (extract_data_frame w months_back s2) as H3.
  rewrite Hfresh, Hex in H3.
  set (s3 := transplant s2 (snd (_extract_data w months_back (fresh_at s))))
    in H3.
  assert (Hs3 : (existsb (String.eqb folder) (st_folders s3) || w_makedirs w)
                && w_to_excel w = true).
  { replace (st_folders s3) with (st_folders s); [exact Hsave |].
    unfold s3. simpl. congruence. }
  exists (with_quit (saved s3 folder (save_path w folder phrase) ef)).
  split; [| split; [| reflexivity]].
  - unfold scrape, try_finally, try_except, scrape_body.
    rewrite (bind_ok _ _ _ _ _ H1), (bind_ok _ _ _ _ _ H2),
      (bind_ok _ _ _ _ _ H3).
    unfold bind at 1, lift. rewrite Hadd. cbn [ok].
    rewrite (save_results_ok w ef phrase folder s3 Hs3). reflexivity.
  - unfold s3. simpl. congruence.
Qed.

Lemma scrape_writes_enriched_frame_witness :
  exists s',
    scrape Sample.two_pages "argentina" [] 2 "Output" init_state = (ok tt, s')
    /\ st_files s'
       = [("Output/argentina_20230815.xlsx",
           mk_enriched
             (frame_of_rows [Sample.row_recent; Sample.row_august;
                             Sample.row_on_cutoff])
             ["argentina"; "argentina"; "argentina"] [0; 1; 1]
             [false; true; false])]
    /\ st_quit s' = true.
Proof.
  apply (scrape_writes_enriched_frame Sample.two_pages "argentina" [] 2%Z
           "Output" init_state
           (frame_of_rows [Sample.row_recent; Sample.row_august;
                           Sample.row_on_cutoff]));
    solve [reflexivity | discriminate].
Defined.

(** ** The columns of [_add_columns] *)

Lemma lower_empty (s : string) : Text.lower s = EmptyString -> s = EmptyString.
Proof. destruct s; [reflexivity | discriminate]. Qed.


Lemma prefix_length (sub s : string) :
  prefix sub s = true -> String.length sub <= String.length s.
Proof.
  revert s. induction sub as [| a sub IH]; intros s H; simpl; [lia |].
  destruct s as [| b s]; [discriminate |].
  apply prefix_cons in H as [_ H]. specialize (IH s H). simpl. lia.
Qed.

Lemma count_skip_bound (sub s : string) :
  forall skip,
    Text.count_skip sub s skip * String.length sub
    <= String.length s - skip.
Proof.
  induction s as [| c s IH]; intro skip; [simpl; lia |].
  cbn [Text.count_skip]. destruct skip as [| k].
  - destruct (prefix sub (String c s)) eqn:E.
    + apply prefix_length in E. simpl in E.
      specialize (IH (String.length sub - 1)). simpl. lia.
    + specialize (IH 0). simpl. lia.
  - specialize (IH k). simpl. lia.
Qed.

Lemma count_bound (sub s : string) :
  sub <> EmptyString ->
  Text.count sub s * String.length sub <= String.length s.
Proof.
  intro H. destruct sub as [| a sub]; [contradiction |].
  unfold Text.count. pose proof (count_skip_bound (String a sub) s 0). lia.
Qed.

(** For a phrase without special characters the occurrences counted do not
    overlap: the count times the length of the lowered phrase is at most the
    length of the lowered title and the lowered description together. *)
Theorem search_phrase_count_fits (w : World)
  (phrase title description : string) (n : nat) :
  phrase <> EmptyString ->
  plain (Text.lower phrase) = true ->
  row_search_phrase_count w phrase title description = ok n ->
  n * String.length (Text.lower phrase)
  <= String.length (Text.lower title)
     + String.length (Text.lower description).
Proof.
  intros Hne Hp H. rewrite (row_search_phrase_count_plain w _ _ _ Hp) in H.
  injection H as <-.
  assert (Hl : Text.lower phrase <> EmptyString)
    by (intro E; apply Hne; now apply lower_empty).
  pose proof (count_bound (Text.lower phrase) (Text.lower title) Hl) as H1.
  pose proof (count_bound (Text.lower phrase) (Text.lower description) Hl)
    as H2.
  nia.
Qed.

Lemma search_phrase_count_fits_witness :
  2 * String.length (Text.lower "Dollars")
  <= String.length (Text.lower "Dollars, dollars")
     + String.length (Text.lower "").
Proof.
  apply (search_phrase_count_fits (Sample.world []) "Dollars"
           "Dollars, dollars" "" 2); solve [reflexivity | discriminate].
Defined.

Lemma str_count_column_length (w : World) (pat : string)
  (column : list string) :
  forall ns, str_count_column w pat column = ok ns ->
             List.length ns = List.length column.
Proof.
  induction column as [| s rest IH]; intros ns H; simpl in H.
  - now injection H as <-.
  - destruct (str_count w pat s) as [e | n]; [discriminate |]. simpl in H.
    destruct (str_count_column w pat rest) as [e | ns']; [discriminate |].
    simpl in H. injection H as <-. simpl. now rewrite (IH ns' eq_refl).
Qed.

Lemma add_series_length (a b : list nat) :
  List.length a = List.length b ->
  List.length (add_series a b) = List.length a.
Proof.
  revert b. induction a as [| x a IH]; intros [| y b] H; simpl in *;
    try discriminate; [reflexivity |].
  now rewrite IH by lia.
Qed.

Lemma has_money_column_length (titles descriptions : list string) :
  List.length titles = List.length descriptions ->
  List.length (has_money_column titles descriptions) = List.length titles.
Proof.
  revert descriptions.
  induction titles as [| t ts IH]; intros [| d ds] H; simpl in *;
    try discriminate; [reflexivity |].
  now rewrite IH by lia.
Qed.

(** The enriched frame keeps the four columns as they were and has one
    phrase, one count and one flag for each row. *)
Theorem add_columns_one_value_per_row (w : World) (df : DataFrame)
  (phrase : string) (ef : EnrichedFrame) :
  equal_lengths df ->
  Date df <> [] ->
  _add_columns w (Some df) phrase = ok ef ->
  base ef = df /\
  search_phrase ef = repeat phrase (List.length (Date df)) /\
  List.length (search_phrase_count ef) = List.length (Date df) /\
  List.length (has_money ef) = List.length (Date df).
Proof.
  intros (H1 & H2 & H3) Hrows. unfold _add_columns.
  destruct (Date df) as [| date dates] eqn:Edate; [contradiction |].
  simpl in H1.
  destruct (str_count_column w (Text.lower phrase)
              (map Text.lower (Title df))) as [e | ct] eqn:Et;
    [discriminate |].
  destruct (str_count_column w (Text.lower phrase)
              (map Text.lower (Description df))) as [e | cd] eqn:Ed;
    [discriminate |].
  simpl. intro H. injection H as <-. simpl.
  apply str_count_column_length in Et, Ed. rewrite length_map in Et, Ed.
  repeat split.
  - rewrite add_series_length; lia.
  - rewrite has_money_column_length; lia.
Qed.

Lemma add_columns_one_value_per_row_witness :
  List.length
    (search_phrase_count
       (mk_enriched (frame_of_rows [Sample.row_recent; Sample.row_august])
                    ["argentina"; "argentina"] [0; 1] [false; true]))
  = 2.
Proof.
  apply (add_columns_one_value_per_row (Sample.world [])
           (frame_of_rows [Sample.row_recent; Sample.row_august])
           "argentina");
    solve [reflexivity | discriminate | repeat split].
Defined.

Lemma str_count_column_plain (w : World) (pat : string)
  (column : list string) :
  plain pat = true ->
  str_count_column w pat column = ok (map (Text.count pat) column).
Proof.
  intro H. induction column as [| s rest IH]; [reflexivity |].
  simpl. rewrite (str_count_plain w pat s H). simpl. now rewrite IH.
Qed.

(** For a phrase without special characters the enrichment of a frame
    cannot fail, and the count of a row is the number of times the phrase,
    case ignored, occurs in its title plus in its description. *)
Theorem add_columns_plain_phrase (w : World) (df : DataFrame)
  (phrase : string) :
  plain (Text.lower phrase) = true ->
  Date df <> [] ->
  _add_columns w (Some df) phrase
  = ok (mk_enriched df
          (repeat phrase (List.length (Date df)))
          (add_series
             (map (fun t => Text.count (Text.lower phrase) (Text.lower t))
                  (Title df))
             (map (fun d => Text.count (Text.lower phrase) (Text.lower d))
                  (Description df)))
          (has_money_column (Title df) (Description df))).
Proof.
  intros H Hrows. unfold _add_columns.
  destruct (Date df) as [| date dates] eqn:Edate; [contradiction |].
  rewrite !(str_count_column_plain w _ _ H). simpl.
  now rewrite !map_map.
Qed.

Lemma add_columns_plain_phrase_witness :
  _add_columns (Sample.world [])
    (Some (frame_of_rows [Sample.row_recent; Sample.row_august])) "Argentina"
  = ok (mk_enriched (frame_of_rows [Sample.row_recent; Sample.row_august])
                    ["Argentina"; "Argentina"] [0; 1] [false; true]).
Proof.
  apply (add_columns_plain_phrase (Sample.world [])
           (frame_of_rows [Sample.row_recent; Sample.row_august])
           "Argentina"); solve [reflexivity | discriminate].
Defined.

(** ** The money flag *)

Lemma occurs_in_joined_left (m title description : string) :
  occurs_in m title -> occurs_in m (title +++ " " +++ description).
Proof.
  intros (pre & post & ->). exists pre, (post +++ " " +++ description).
  now rewrite !append_assoc.
Qed.

Lemma occurs_in_joined_right (m title description : string) :
  occurs_in m description -> occurs_in m (title +++ " " +++ description).
Proof.
  intros (pre & post & ->). exists (title +++ " " +++ pre), post.
  now rewrite !append_assoc.
Qed.

(** A mention in the title alone or in the description alone is enough for
    the flag of the row. *)
Theorem money_in_either_field (title description : string) :
  Regex.search Regex.money_regex title = true
  \/ Regex.search Regex.money_regex description = true ->
  row_has_money title description = true.
Proof.
  unfold row_has_money. rewrite !search_correct.
  intros [(m & H & Ho) | (m & H & Ho)]; exists m; (split; [exact H |]).
  - now apply occurs_in_joined_left.
  - now apply occurs_in_joined_right.
Qed.

Lemma money_in_either_field_witness :
  row_has_money "Argentina wins" "cost $50" = true.
Proof.
  apply (money_in_either_field "Argentina wins" "cost $50").
  right. reflexivity.
Defined.

(** The space that joins the two fields can complete a mention that
    neither field has: a title that ends with a number and a description
    that starts with "dollars" or "USD" flag the row. *)
Theorem money_across_the_join (title n word description : string) :
  is_number n = true ->
  word = "dollars" \/ word = "USD" ->
  row_has_money (title +++ n) (word +++ description) = true.
Proof.
  intros Hn Hw. unfold row_has_money. apply search_correct.
  exists (n +++ " " +++ word). split.
  - apply money_regex_words. exact (amount_blank_word n " " word Hn eq_refl Hw).
  - exists title, description. now rewrite !append_assoc.
Qed.

Lemma money_across_the_join_witness :
  row_has_money "Top 5" "dollars a day" = true /\
  Regex.search Regex.money_regex "Top 5" = false /\
  Regex.search Regex.money_regex "dollars a day" = false.
Proof.
  split; [| split; reflexivity].
  apply (money_across_the_join "Top " "5" "dollars" " a day");
    solve [reflexivity | now left].
Defined.

Lemma no_digit_app (a b : string) :
  no_digit (a +++ b) = no_digit a && no_digit b.
Proof.
  induction a as [| c a IH]; simpl; [reflexivity |].
  now rewrite IH, andb_assoc.
Qed.

Lemma number_has_digit (n : string) : is_number n = true -> no_digit n = false.
Proof.
  destruct n as [| c n]; [discriminate |]. simpl.
  intro H. apply andb_true_iff in H as [Hc _]. now rewrite Hc.
Qed.

Lemma mention_has_digit (m : string) :
  currency_mention m -> no_digit m = false.
Proof.
  intro H.
  destruct H as [n Hn | n f Hn Hf | n word Hn Hw | n c word Hn Hc Hw
                 | n g word Hn Hg Hw | n g c word Hn Hg Hc Hw];
    apply number_has_digit in Hn;
    rewrite ?no_digit_app, Hn; simpl; rewrite ?andb_false_r; reflexivity.
Qed.

(** The flag is never set for a row without a digit in its title and in
    its description, whatever words or signs of money they hold. *)
Theorem no_digit_no_money (title description : string) :
  no_digit title = true ->
  no_digit description = true ->
  row_has_money title description = false.
Proof.
  intros Ht Hd. destruct (row_has_money title description) eqn:E;
    [| reflexivity].
  unfold row_has_money in E. apply search_correct in E as (m & H & Ho).
  apply money_regex_words, mention_has_digit in H.
  destruct Ho as (pre & post & Eq).
  assert (Hall : no_digit (title +++ " " +++ description) = true).
  { rewrite !no_digit_app, Ht, Hd. reflexivity. }
  rewrite Eq, !no_digit_app, H in Hall.
  rewrite andb_false_r in Hall. discriminate.
Qed.

Lemma no_digit_no_money_witness :
  row_has_money "Millions of dollars lost" "USD falls, $ rises" = false.
Proof.
  apply (no_digit_no_money "Millions of dollars lost" "USD falls, $ rises");
    reflexivity.
Defined.

(** ** The dates that [normalize] gives *)

(** A date that [normalize] returns is [now] or midnight of a day that
    exists (year 1 to 9999, month 1 to 12, day within the month: "February
    30" is refused); and the only exception it raises is ValueError. *)
Theorem normalize_gives_a_day (now : datetime) (raw : string) :
  (forall t, normalize now raw = ok t ->
     t = now \/
     (hour t = 0 /\ minute t = 0 /\ second t = 0 /\ microsecond t = 0 /\
      1 <= year t <= 9999 /\ 1 <= month t <= 12 /\
      1 <= day t <= days_in_month (year t) (month t))%Z) /\
  (forall e, normalize now raw = throw e -> e = ValueError).
Proof.
  rewrite normalize_unfold.
  destruct (Text.contains "ago" (Text.remove_char "." raw)).
  - split; [intros t H; injection H as <-; now left | discriminate].
  - assert (Hday : forall fmt t,
              Strptime.strptime (Text.remove_char "." raw) fmt = ok t ->
              (hour t = 0 /\ minute t = 0 /\ second t = 0 /\
               microsecond t = 0 /\
               1 <= year t <= 9999 /\ 1 <= month t <= 12 /\
               1 <= day t <= days_in_month (year t) (month t))%Z).
    { intros fmt t. unfold Strptime.strptime.
      destruct (Strptime.parse fmt _ _) as [f |]; [| discriminate].
      intro H. apply datetime_new_day in H as [-> H]. simpl. lia. }
    unfold parse_long_then_abbr.
    destruct (Strptime.strptime _ Strptime.fmt_long) as [e | t] eqn:El.
    + split.
      * intros t H. right. exact (Hday _ _ H).
      * intros e' H. exact (strptime_raises _ _ _ H).
    + split; [| discriminate].
      intros t' H. injection H as <-. right. exact (Hday _ _ El).
Qed.

Lemma normalize_gives_a_day_witness :
  normalize Sample.today "February 30, 2023" = throw ValueError /\
  normalize Sample.today "Feb. 29, 2024"
  = ok (mk_datetime 2024 2 29 0 0 0 0).
Proof.
  split; [| reflexivity].
  destruct (normalize Sample.today "February 30, 2023") as [e | t] eqn:E.
  - now rewrite (proj2 (normalize_gives_a_day Sample.today
                          "February 30, 2023") e E).
  - vm_compute in E. discriminate E.
Defined.

(** ** Results that end before the ninth page *)

(** When the results newer than the cutoff end before the ninth page (pages
    read to the end, then a page read to the end whose next-page control
    never becomes clickable), the extraction returns no frame: the rows read
    are dropped and the run writes no file. *)
Theorem results_ending_early_give_no_file
  (w : World) (months_back : Z) (s : State) (cutoff : datetime) (k : nat)
  (rows rows' : list Row) (pg : Page) (li : Entry) (lis : list Entry) :
  date_min (w_today w) months_back = ok cutoff ->
  k < 9 ->
  consumed (w_today w) cutoff (skipn (st_page s) (w_pages w)) k = Some rows ->
  nth_error (w_pages w) (st_page s + k) = Some pg ->
  p_results pg = li :: lis ->
  rows_of (w_today w) cutoff (li :: lis) = Some rows' ->
  p_next_clickable pg = false ->
  _extract_data w months_back s
    = (ok None, log_failure (with_page s (st_page s + k)) TimeoutException) /\
  (forall phrase categories folder,
   exists s',
     scrape w phrase categories months_back folder s = (ok tt, s') /\
     st_files s' = st_files s).
Proof.
  intros Hc Hk Hcons Hp Hr Hrows Hnc.
  assert (Hex : forall s0, st_page s0 = st_page s ->
            _extract_data w months_back s0
            = (ok None, log_failure (with_page s0 (st_page s0 + k))
                                    TimeoutException)).
  { intros s0 H0.
    apply (next_page_timeout_discards w months_back s0 cutoff k rows rows'
             pg li lis Hc Hk); try rewrite H0; auto. }
  split; [now apply Hex |].
  intros phrase categories folder.
  destruct (scrape_loses_run w phrase categories months_back folder s
              TimeoutException k Hex) as (s' & Hs & _ & _ & Hf & _).
  now exists s'.
Qed.

Lemma results_ending_early_give_no_file_witness :
  _extract_data Sample.last_page 0 init_state
  = (ok None, log_failure init_state TimeoutException).
Proof.
  apply (results_ending_early_give_no_file Sample.last_page 0%Z init_state
           (mk_datetime 2023 8 1 0 0 0 0) 0 []
           [Sample.row_recent; Sample.row_august]
           (mk_page [Sample.recent; Sample.august] true false)
           Sample.recent [Sample.august]);
    solve [reflexivity | simpl; lia].
Defined.

(** ** The cutoff and [months_back] *)

Lemma date_min_value (today cutoff : datetime) (months_back : Z) :
  date_min today months_back = ok cutoff ->
  cutoff = mk_datetime (year today) (month today - months_back) 1 0 0 0 0.
Proof.
  unfold date_min. intro H. now apply datetime_new_day in H as [-> _].
Qed.

(** Going further back never drops a date: a date that is not below the
    cutoff of [months_back] is not below the cutoff of a larger one. *)
Theorem larger_months_back_keeps_more (today c1 c2 d : datetime)
  (mb1 mb2 : Z) :
  date_min today mb1 = ok c1 ->
  date_min today mb2 = ok c2 ->
  (mb1 <= mb2)%Z ->
  datetime_lt d c1 = false ->
  datetime_lt d c2 = false.
Proof.
  intros H1 H2 Hle. apply date_min_value in H1, H2. subst c1 c2.
  unfold datetime_lt, datetime_key.
  cbn [lex_lt year month day hour minute second microsecond].
  intro Hn.
  destruct (year d <? year today)%Z eqn:Ey; [discriminate |].
  cbn [orb] in Hn |- *.
  destruct (year d =? year today)%Z eqn:Eyy; [| reflexivity].
  cbn [andb] in Hn |- *.
  destruct (month d <? month today - mb1)%Z eqn:Em1; [discriminate |].
  cbn [orb] in Hn.
  apply Z.ltb_ge in Em1.
  replace (month d <? month today - mb2)%Z with false
    by (symmetry; apply Z.ltb_ge; lia).
  cbn [orb].
  destruct (month d =? month today - mb2)%Z eqn:Em2; [| reflexivity].
  apply Z.eqb_eq in Em2.
  assert (mb1 = mb2) by lia. subst mb2.
  rewrite (proj2 (Z.eqb_eq _ _) Em2) in Hn. exact Hn.
Qed.

Lemma larger_months_back_keeps_more_witness :
  datetime_lt (mk_datetime 2023 7 4 0 0 0 0) (mk_datetime 2023 5 1 0 0 0 0)
  = false.
Proof.
  apply (larger_months_back_keeps_more Sample.today
           (mk_datetime 2023 7 1 0 0 0 0) (mk_datetime 2023 5 1 0 0 0 0)
           (mk_datetime 2023 7 4 0 0 0 0) 1%Z 3%Z);
    solve [reflexivity | lia].
Defined.
